(** * build_tiny_transcoder: model identification and tensor transformation

    A shallow embedding of [build_tiny_transcoder.py]: the safetensors header
    inspector, the TAESD family / role classifier, the prefix resolver, the
    tensor loader, the layer realigner, the auxiliary layer injectors and the
    transcoder assembler, followed by the properties proved about them.

    Modelling conventions.
    - A Python [str] is a [string]; the character tests the program relies
      on ([str.isdecimal], [str.lower]) are modelled on the ASCII range, which
      is where tensor names and the words "encoder" / "decoder" live.
    - A Python [dict] is an insertion-ordered association list ([PyDict]):
      assigning to an existing key keeps its position, a new key goes last.
    - Objects that the program mutates in place live in a [heap] and are
      passed around by reference ([loc]).
    - Library calls that may fail return an [outcome]; the operating system,
      the JSON decoder and the safetensors reader are fields of a [runtime]. *)

From Stdlib Require Import ZArith QArith List String Ascii Bool Lia.
From Stdlib Require Import DecimalString DecimalZ DecimalPos.
From stdpp Require Import gmap.

Import ListNotations.
Local Open Scope list_scope.
Local Open Scope string_scope.
#[local] Arguments String.append !s1 s2 : simpl nomatch.
#[local] Set Warnings "-register-all".

(** ** Python strings *)

Module Str.

(** [s.startswith(p)] *)
Fixpoint startswith (s p : string) {struct p} : bool :=
  match p with
  | EmptyString => true
  | String c p' =>
      match s with
      | EmptyString => false
      | String d s' => Ascii.eqb d c && startswith s' p'
      end
  end.

(** [s[n:]] for [0 <= n] *)
Fixpoint skip (n : nat) (s : string) : string :=
  match n, s with
  | O, _ => s
  | S _, EmptyString => EmptyString
  | S n', String _ s' => skip n' s'
  end.

(** [s[:n]] for [0 <= n] *)
Fixpoint take (n : nat) (s : string) : string :=
  match n, s with
  | O, _ => EmptyString
  | S _, EmptyString => EmptyString
  | S n', String c s' => String c (take n' s')
  end.

(** [s[:-n]] where [n] is a length: Python reads [-0] as [0], so the slice
    is empty when [n = 0]; otherwise the last [n] characters are cut off. *)
Definition slice_to_minus (n : nat) (s : string) : string :=
  match n with
  | O => take 0 s
  | S _ => take (String.length s - n) s
  end.

(** [s.endswith(p)] *)
Definition endswith (s p : string) : bool :=
  (String.length p <=? String.length s)%nat
  && String.eqb (skip (String.length s - String.length p) s) p.

(** [sub in s] *)
Fixpoint contains (sub s : string) : bool :=
  startswith s sub
  || match s with
     | EmptyString => false
     | String _ s' => contains sub s'
     end.

Definition is_upper (c : ascii) : bool :=
  let n := nat_of_ascii c in (65 <=? n)%nat && (n <=? 90)%nat.

Definition lower_char (c : ascii) : ascii :=
  if is_upper c then ascii_of_nat (nat_of_ascii c + 32) else c.

(** [s.lower()] *)
Fixpoint lower (s : string) : string :=
  match s with
  | EmptyString => EmptyString
  | String c s' => String (lower_char c) (lower s')
  end.

Definition is_digit (c : ascii) : bool :=
  let n := nat_of_ascii c in (48 <=? n)%nat && (n <=? 57)%nat.

Fixpoint all_digits (s : string) : bool :=
  match s with
  | EmptyString => true
  | String c s' => is_digit c && all_digits s'
  end.

(** [s.isdecimal()]: at least one character, all of them decimal digits. *)
Definition isdecimal (s : string) : bool :=
  match s with
  | EmptyString => false
  | String _ _ => all_digits s
  end.

Definition digit_value (c : ascii) : Z := Z.of_nat (nat_of_ascii c) - 48.

Fixpoint int_from (acc : Z) (s : string) : Z :=
  match s with
  | EmptyString => acc
  | String c s' => int_from (10 * acc + digit_value c) s'
  end.

(** [int(s)] for a string [s] with [s.isdecimal()] *)
Definition int (s : string) : Z := int_from 0 s.

(** [str(n)] / [f"{n}"] for an integer *)
Definition of_int (n : Z) : string := NilZero.string_of_int (Z.to_int n).

(** [s.split('.', 1)]: the text before the first dot and, when there is a
    dot, the text after it. *)
Fixpoint split_dot (s : string) : string * option string :=
  match s with
  | EmptyString => (EmptyString, None)
  | String c s' =>
      if Ascii.eqb c "." then (EmptyString, Some s')
      else let '(h, t) := split_dot s' in (String c h, t)
  end.

(** The top-level segment of a dotted name. *)
Definition first_segment (s : string) : string := fst (split_dot s).

(** No dot occurs in [s]. *)
Fixpoint dot_free (s : string) : bool :=
  match s with
  | EmptyString => true
  | String c s' => negb (Ascii.eqb c ".") && dot_free s'
  end.

(** [s.rfind(c)], [None] standing for [-1]. *)
Fixpoint rfind (c : ascii) (s : string) : option nat :=
  match s with
  | EmptyString => None
  | String d s' =>
      match rfind c s' with
      | Some i => Some (S i)
      | None => if Ascii.eqb d c then Some 0%nat else None
      end
  end.

End Str.

(** ** [os.path] (POSIX flavour) *)

Module OsPath.

(** [os.path.basename(p)]: what follows the last slash. *)
Definition basename (p : string) : string :=
  match Str.rfind "/" p with
  | Some i => Str.skip (S i) p
  | None => p
  end.

(** The scan of [genericpath._splitext] between the start of the file name
    and the last dot: is there a character that is not a dot? *)
Fixpoint has_non_dot (s : string) : bool :=
  match s with
  | EmptyString => false
  | String c s' => negb (Ascii.eqb c ".") || has_non_dot s'
  end.

(** [os.path.splitext(p)]: the extension starts at the last dot of the last
    path component, unless only dots come before it in that component. *)
Definition splitext (p : string) : string * string :=
  match Str.rfind "." p with
  | None => (p, EmptyString)
  | Some dot =>
      let name_start :=
        match Str.rfind "/" p with
        | Some sep => S sep
        | None => 0%nat
        end in
      if (name_start <=? dot)%nat
         && has_non_dot (Str.take (dot - name_start) (Str.skip name_start p))
      then (Str.take dot p, Str.skip dot p)
      else (p, EmptyString)
  end.

End OsPath.


(** ** Exceptions and fallible calls *)

Inductive exception : Type :=
| AssertionError
| KeyError
| TypeError
| OSError              (* [IOError] is an alias of [OSError] *)
| ValueError
| JSONDecodeError      (* [json.JSONDecodeError], a [ValueError] *)
| UnicodeDecodeError   (* a [ValueError] *)
| StructError          (* [struct.error] *)
| RecursionError
| SafetensorError.

Definition exception_eqb (a b : exception) : bool :=
  match a, b with
  | AssertionError, AssertionError | KeyError, KeyError
  | TypeError, TypeError | OSError, OSError | ValueError, ValueError
  | JSONDecodeError, JSONDecodeError
  | UnicodeDecodeError, UnicodeDecodeError | StructError, StructError
  | RecursionError, RecursionError | SafetensorError, SafetensorError => true
  | _, _ => false
  end.

(** [isinstance(e, cls)] among the classes above: the two decode errors
    derive from [ValueError], the rest are unrelated to one another. *)
Definition isinstance (e cls : exception) : bool :=
  exception_eqb e cls
  || match cls, e with
     | ValueError, (JSONDecodeError | UnicodeDecodeError) => true
     | _, _ => false
     end.

Inductive outcome (A : Type) : Type :=
| Return (a : A)
| Raise (e : exception).
Arguments Return {A} a.
Arguments Raise {A} e.

Definition bind {A B : Type} (m : outcome A) (k : A -> outcome B) : outcome B :=
  match m with
  | Return a => k a
  | Raise e => Raise e
  end.

Notation "'let*' x ':=' m 'in' k" := (bind m (fun x => k))
  (at level 10, x pattern, m at level 100, k at level 200).

(** [assert cond] *)
Definition py_assert (cond : bool) : outcome unit :=
  if cond then Return tt else Raise AssertionError.

(** [try: body / except classes: handler] *)
Definition try_except {A : Type} (body : outcome A) (classes : list exception)
    (handler : outcome A) : outcome A :=
  match body with
  | Return a => Return a
  | Raise e => if existsb (isinstance e) classes then handler else Raise e
  end.

(** ** Python dictionaries *)

Module PyDict.
Section Dict.
Context {V : Type}.

Definition t : Type := list (string * V).

Definition keys (d : t) : list string := map fst d.

(** [d.get(k)] *)
Fixpoint get (d : t) (k : string) : option V :=
  match d with
  | [] => None
  | (k', v) :: r => if String.eqb k' k then Some v else get r k
  end.

(** [k in d] *)
Definition mem (k : string) (d : t) : bool :=
  existsb (String.eqb k) (keys d).

(** [d[k] = v] *)
Fixpoint set (d : t) (k : string) (v : V) : t :=
  match d with
  | [] => [(k, v)]
  | (k', v') :: r =>
      if String.eqb k' k then (k', v) :: r else (k', v') :: set r k v
  end.

(** [d.update(other)] *)
Definition update (d other : t) : t :=
  fold_left (fun acc kv => set acc (fst kv) (snd kv)) other d.

(** [{**a, **b}] *)
Definition merge (a b : t) : t := update (update [] a) b.

(** [not d] *)
Definition is_empty (d : t) : bool :=
  match d with [] => true | _ :: _ => false end.
End Dict.
Arguments t V : clear implicits.
End PyDict.

(** ** Tensors *)

Inductive dtype : Type := float16 | float32.

(** Array values are kept symbolic: a tensor read from a file, a scalar
    array built from a Python float, or the conversion of an array. Float
    literals are kept as the decimal fractions written in the source. *)
Inductive ndarray : Type :=
| FromFile (path key : string)      (* [f.get_tensor(key)] on the file at [path] *)
| NpArray (value : Q) (dt : dtype)  (* [np.array(value, dtype=dt)] *)
| AsType (a : ndarray) (dt : dtype) (* [a.astype(dt)] *).

(** ** The store of mutable dictionaries *)

Definition loc : Type := positive.
Abbreviation heap := (gmap loc (PyDict.t ndarray)).

(** A new dictionary object. *)
Definition alloc (d : PyDict.t ndarray) (h : heap) : loc * heap :=
  let l := fresh (dom h) in (l, <[l := d]> h).

(** The dictionary a reference points to. *)
Definition deref (h : heap) (l : loc) : PyDict.t ndarray :=
  match h !! l with
  | Some d => d
  | None => []
  end.

(** ** JSON values and the outside world *)

Inductive json : Type :=
| JNull
| JBool (b : bool)
| JNumber (literal : string)
| JString (s : string)
| JArray (items : list json)
| JObject (members : PyDict.t json).

Record runtime : Type := {
  (** [os.path.getsize(path)] *)
  os_path_getsize : string -> outcome N;
  (** [open(path, "rb")] and what reading the file delivers *)
  open_rb : string -> outcome (list Byte.byte);
  (** [json.loads(data)] *)
  json_loads : list Byte.byte -> outcome json;
  (** [safe_open(path, framework="numpy", device='cpu')] and its [f.keys()] *)
  safe_open : string -> outcome (list string)
}.

(** ** Constants *)

Definition SCALE_AND_SHIFT_BY_LATENT_FORMAT : list (string * (Q * Q)) :=
  [ ("sd",   (0.18215, 0));
    ("sdxl", (0.13025, 0));
    ("sd3",  (1.5305, 0.0609));
    ("f1",   (0.3611, 0.1159)) ]%Q.

Definition VALID_LATENT_FORMATS : list string :=
  map fst SCALE_AND_SHIFT_BY_LATENT_FORMAT.

(** [table[key]] on a dictionary literal *)
Definition subscript {V : Type} (table : list (string * V)) (key : string)
    : outcome V :=
  match PyDict.get table key with
  | Some v => Return v
  | None => Raise KeyError
  end.

(** [x in (a, b, ...)] on strings *)
Definition in_tuple (x : string) (items : list string) : bool :=
  existsb (String.eqb x) items.

(** ** Tensors: header, prefix, loading, layer shift *)

(** [struct.unpack("<Q", data)[0]] *)
Definition struct_unpack_Q (data : list Byte.byte) : outcome N :=
  if (List.length data =? 8)%nat
  then Return (fold_right (fun b acc => Byte.to_N b + 256 * acc) 0 data)%N
  else Raise StructError.

Definition DEFAULT_SIZE_LIMIT : N := 67108864.

Definition get_safetensors_header (rt : runtime) (file_path : string)
    (size_limit : N) : outcome json :=
  try_except
    (let* size := os_path_getsize rt file_path in
     if (size <? 8)%N then Return (JArray [])
     else
       let* f := open_rb rt file_path in
       let* header_length := struct_unpack_Q (firstn 8 f) in
       if (size_limit <? header_length)%N then Return (JArray [])
       else json_loads rt (firstn (N.to_nat header_length) (skipn 8 f)))
    [ValueError; JSONDecodeError; OSError]
    (Return (JArray [])).

Fixpoint get_tensor_prefix_keys (keys : list string) (postfix : string)
    (not_containing : option string) : string :=
  match keys with
  | [] => ""
  | key :: rest =>
      if Str.endswith key postfix then
        if match not_containing with
           | Some word => Str.contains word key
           | None => false
           end
        then get_tensor_prefix_keys rest postfix not_containing
        else Str.slice_to_minus (String.length postfix) key
      else get_tensor_prefix_keys rest postfix not_containing
  end.

Definition get_tensor_prefix {V : Type} (state_dict : PyDict.t V)
    (postfix : string) (not_containing : option string) : string :=
  get_tensor_prefix_keys (PyDict.keys state_dict) postfix not_containing.

(** [if prefix and not prefix.endswith('.'): prefix += '.'] *)
Definition ensure_dot (prefix : string) : string :=
  if negb (String.eqb prefix "") && negb (Str.endswith prefix ".")
  then prefix ++ "."
  else prefix.

Definition load_tensors (rt : runtime) (path prefix target_prefix : string)
    : outcome (PyDict.t ndarray) :=
  let prefix := ensure_dot prefix in
  let target_prefix := ensure_dot target_prefix in
  let prefix_len := String.length prefix in
  let* f_keys := safe_open rt path in
  Return
    (fold_left
       (fun tensors key =>
          if Str.startswith key prefix
          then PyDict.set tensors (target_prefix ++ Str.skip prefix_len key)
                 (FromFile path key)
          else tensors)
       f_keys []).

Definition shift_layers {V : Type} (state_dict : PyDict.t V)
    (layer_prefix : string) (layer_offset : Z) : PyDict.t V :=
  fold_left
    (fun fixed_dict '(key, tensor) =>
       if negb (Str.startswith key layer_prefix)
       then PyDict.set fixed_dict key tensor
       else
         let '(part0, part1) :=
           Str.split_dot (Str.skip (String.length layer_prefix) key) in
         if negb (Str.isdecimal part0)
         then PyDict.set fixed_dict key tensor
         else
           let new_layer_number := (Str.int part0 + layer_offset)%Z in
           let dot_suffix :=
             match part1 with
             | Some rest => "." ++ rest
             | None => ""
             end in
           let fixed_key :=
             layer_prefix ++ Str.of_int new_layer_number ++ dot_suffix in
           PyDict.set fixed_dict fixed_key tensor)
    state_dict [].

(** ** Identification *)

Definition TAESD_ROOT_NAMES : list string :=
  ["taesd"; "taesdxl"; "taesd3"; "taef1"].

Definition is_taesd {V : Type} (state_dict : PyDict.t V) : bool :=
  if PyDict.mem "3.conv.4.bias" state_dict
     && PyDict.mem "8.conv.0.weight" state_dict
  then true
  else if PyDict.mem "decoder.layers.3.conv.4.bias" state_dict
          && PyDict.mem "decoder.layers.8.conv.0.weight" state_dict
  then true
  else if PyDict.mem "encoder.layers.4.conv.4.bias" state_dict
          && PyDict.mem "encoder.layers.8.conv.0.weight" state_dict
  then true
  else existsb (fun key => existsb (Str.startswith key) TAESD_ROOT_NAMES)
         (PyDict.keys state_dict).

Definition ENCODER_TENSOR_SUBNAMES : list (string * list string) :=
  [ ("encoder", ["encoder"]);
    ("decoder", ["decoder"]) ].

Definition is_taesd_with_role {V : Type} (file_path : string)
    (state_dict : PyDict.t V) (role : string) : outcome bool :=
  let* _ := py_assert (in_tuple role ["encoder"; "decoder"]) in
  if PyDict.is_empty state_dict || negb (is_taesd state_dict)
  then Return false
  else
    let* subnames := subscript ENCODER_TENSOR_SUBNAMES role in
    if existsb (fun key => existsb (fun subname => Str.contains subname key) subnames)
         (PyDict.keys state_dict)
    then Return true
    else
      let '(file_name, _) := OsPath.splitext (OsPath.basename file_path) in
      Return (Str.contains role (Str.lower file_name)).

(** The header as the classifier reads it: a JSON object is a dictionary,
    the empty list returned for an unreadable header has no keys, and any
    other JSON value makes the membership tests or [.keys()] fail. *)
Definition as_state_dict (header : json) : outcome (PyDict.t json) :=
  match header with
  | JObject members => Return members
  | JArray [] => Return []
  | _ => Raise TypeError
  end.

Fixpoint find_taesd_loop (rt : runtime) (input_files : list string)
    (role oposite_role : string) : outcome (option (string * string)) :=
  match input_files with
  | [] => Return None
  | file :: rest =>
      let* header := get_safetensors_header rt file DEFAULT_SIZE_LIMIT in
      let* state_dict := as_state_dict header in
      let* found := is_taesd_with_role file state_dict role in
      if found
      then
        let tensor_prefix :=
          get_tensor_prefix state_dict ".3.conv.4.bias" (Some oposite_role) in
        Return (Some (file, tensor_prefix))
      else find_taesd_loop rt rest role oposite_role
  end.

Definition find_taesd_with_role (rt : runtime) (input_files : list string)
    (role : string) : outcome (option (string * string)) :=
  let* _ := py_assert (in_tuple role ["encoder"; "decoder"]) in
  let oposite_role := if String.eqb role "encoder" then "decoder" else "encoder" in
  find_taesd_loop rt input_files role oposite_role.

(** ** Transcoder extra layers *)

(** [state_dict.update(other)] on the dictionary object behind [state_dict] *)
Definition dict_update (state_dict : loc) (other : PyDict.t ndarray) (h : heap)
    : heap :=
  alter (fun d => PyDict.update d other) state_dict h.

(** Both injectors return [None]; their effect is the new store. *)
Definition insert_xbridge_layer (state_dict : loc) (gaussian_blur_sigma : Q)
    (target_prefix : string) (dt : dtype) (h : heap) : heap :=
  dict_update state_dict
    [(target_prefix ++ "gaussian_blur_sigma", NpArray gaussian_blur_sigma dt)] h.

Definition insert_emulation_layer (state_dict : loc) (scale_factor shift_factor : Q)
    (target_prefix : string) (dt : dtype) (h : heap) : heap :=
  let h := dict_update state_dict
             [(target_prefix ++ "scale_factor", NpArray scale_factor dt)] h in
  dict_update state_dict
    [(target_prefix ++ "shift_factor", NpArray shift_factor dt)] h.

(** ** Building *)

Definition DECODER_PREFIX : string := "transd.".
Definition ENCODER_PREFIX : string := "transe.".
Definition XBRIDGE_PREFIX : string := "transx.".
Definition INPUT_EMULATION_PREFIX : string := "in_emu.".
Definition OUTPUT_EMULATION_PREFIX : string := "out_emu.".

(** Truth value of an optional float: [None] and [0.0] are false. *)
Definition float_truthy (x : option Q) : option Q :=
  match x with
  | Some q => if Qeq_bool q 0 then None else Some q
  | None => None
  end.

Definition build_tiny_transcoder (rt : runtime)
    (encoder_path_and_prefix decoder_path_and_prefix : string * string)
    (input_latent_format output_latent_format : string)
    (xbridge_gaussian_blur_sigma : option Q)
    (include_decoderencoder_emulation : bool)
    (dt : option dtype) (h : heap) : outcome (loc * heap) :=
  let* _ := py_assert (in_tuple input_latent_format VALID_LATENT_FORMATS) in
  let* _ := py_assert (in_tuple output_latent_format VALID_LATENT_FORMATS) in
  let* encoder_tensors :=
    load_tensors rt (fst encoder_path_and_prefix) (snd encoder_path_and_prefix)
      ENCODER_PREFIX in
  let* decoder_tensors :=
    load_tensors rt (fst decoder_path_and_prefix) (snd decoder_path_and_prefix)
      DECODER_PREFIX in
  let '(transcoder_tensors, h) :=
    alloc (PyDict.merge encoder_tensors decoder_tensors) h in
  let '(transcoder_tensors, h) :=
    if PyDict.mem (DECODER_PREFIX ++ "0.weight") (deref h transcoder_tensors)
    then alloc (shift_layers (deref h transcoder_tensors) DECODER_PREFIX 1) h
    else (transcoder_tensors, h) in
  let h :=
    match float_truthy xbridge_gaussian_blur_sigma with
    | Some sigma =>
        insert_xbridge_layer transcoder_tensors sigma XBRIDGE_PREFIX float32 h
    | None => h
    end in
  let* h :=
    if include_decoderencoder_emulation
    then
      let* scale_and_shift :=
        subscript SCALE_AND_SHIFT_BY_LATENT_FORMAT input_latent_format in
      let h := insert_emulation_layer transcoder_tensors
                 (fst scale_and_shift) (snd scale_and_shift)
                 INPUT_EMULATION_PREFIX float32 h in
      let* scale_and_shift :=
        subscript SCALE_AND_SHIFT_BY_LATENT_FORMAT output_latent_format in
      Return (insert_emulation_layer transcoder_tensors
                (fst scale_and_shift) (snd scale_and_shift)
                OUTPUT_EMULATION_PREFIX float32 h)
    else Return h in
  match dt with
  | Some target =>
      let converted_tensors :=
        fold_left
          (fun converted '(key, tensor) =>
             PyDict.set converted key (AsType tensor target))
          (deref h transcoder_tensors) [] in
      Return (alloc converted_tensors h)
  | None => Return (transcoder_tensors, h)
  end.

(** ** Vocabulary of the statements *)

Definition valid_role (role : string) : Prop :=
  role = "encoder" \/ role = "decoder".

(** The file name as the role fallback reads it: base name, extension cut
    off, lower case. *)
Definition lowered_stem (file_path : string) : string :=
  Str.lower (fst (OsPath.splitext (OsPath.basename file_path))).

(** A key qualifies for the prefix resolver when it ends with the postfix
    and does not contain the excluded word. *)
Definition qualifies (postfix : string) (not_containing : option string)
    (key : string) : bool :=
  Str.endswith key postfix
  && negb match not_containing with
          | Some word => Str.contains word key
          | None => false
          end.

(** The first qualifying key in iteration order. *)
Definition first_match (keys : list string) (postfix : string)
    (not_containing : option string) : option string :=
  find (qualifies postfix not_containing) keys.

(** The name under which [shift_layers] files the tensor of [key]. *)
Definition fixed_key_of (layer_prefix : string) (layer_offset : Z)
    (key : string) : string :=
  if Str.startswith key layer_prefix
  then
    let '(part0, part1) :=
      Str.split_dot (Str.skip (String.length layer_prefix) key) in
    if Str.isdecimal part0
    then layer_prefix
         ++ Str.of_int (Str.int part0 + layer_offset)
         ++ match part1 with
            | Some rest => "." ++ rest
            | None => ""
            end
    else key
  else key.



(** The content of the dictionary [build_tiny_transcoder] returns, stage by
    stage, as a function of the two loaded tensor sets and of the table
    entries of the two latent formats. *)

Definition shifted_stage (encoder_tensors decoder_tensors : PyDict.t ndarray)
    : PyDict.t ndarray :=
  let merged := PyDict.merge encoder_tensors decoder_tensors in
  if PyDict.mem "transd.0.weight" merged
  then shift_layers merged "transd." 1
  else merged.

Definition bridged_stage (d : PyDict.t ndarray) (sigma : option Q)
    : PyDict.t ndarray :=
  match float_truthy sigma with
  | Some s => PyDict.set d "transx.gaussian_blur_sigma" (NpArray s float32)
  | None => d
  end.


Definition emulated_stage (d : PyDict.t ndarray) (input_pair output_pair : Q * Q)
    (emulation : bool) : PyDict.t ndarray :=
  if emulation
  then
    PyDict.set
      (PyDict.set
         (PyDict.set
            (PyDict.set d "in_emu.scale_factor"
               (NpArray (fst input_pair) float32))
            "in_emu.shift_factor" (NpArray (snd input_pair) float32))
         "out_emu.scale_factor" (NpArray (fst output_pair) float32))
      "out_emu.shift_factor" (NpArray (snd output_pair) float32)
  else d.

Definition converted_stage (d : PyDict.t ndarray) (dt : option dtype)
    : PyDict.t ndarray :=
  match dt with
  | Some target =>
      PyDict.update [] (map (fun kv => (fst kv, AsType (snd kv) target)) d)
  | None => d
  end.

Definition assembled (encoder_tensors decoder_tensors : PyDict.t ndarray)
    (input_pair output_pair : Q * Q) (sigma : option Q) (emulation : bool)
    (dt : option dtype) : PyDict.t ndarray :=
  converted_stage
    (emulated_stage
       (bridged_stage (shifted_stage encoder_tensors decoder_tensors) sigma)
       input_pair output_pair emulation)
    dt.

(** ** An example world

    Three files: a TAESD encoder in the original layout, a decoder in the
    diffusers layout, and a file whose header is two thousand opening
    brackets. The example decoder knows the two well-formed headers, gives
    up with [RecursionError] on input nested deeper than the interpreter's
    recursion limit (as CPython's [json] does), and rejects anything
    else. *)

Definition quote : string := String (ascii_of_nat 34) "".

(** The text of a header naming the given tensors. *)
Definition header_text (names : list string) : string :=
  "{"
  ++ String.concat "," (map (fun name => quote ++ name ++ quote ++ ":{}") names)
  ++ "}".

(** [struct.pack("<Q", n)] *)
Definition struct_pack_Q (n : N) : list Byte.byte :=
  map (fun i =>
         match Byte.of_N ((n / 256 ^ i) mod 256)%N with
         | Some b => b
         | None => Byte.x00
         end)
    [0; 1; 2; 3; 4; 5; 6; 7]%N.

(** A file that consists of a length prefix and a header text. *)
Definition file_image (text : string) : list Byte.byte :=
  (struct_pack_Q (N.of_nat (String.length text))
   ++ list_byte_of_string text)%list.

Definition encoder_names : list string :=
  ["taesdxl_encoder.1.weight"; "taesdxl_encoder.3.conv.4.bias"].

Definition decoder_names : list string :=
  ["decoder.layers.0.weight"; "decoder.layers.3.conv.4.bias";
   "decoder.layers.8.conv.0.weight"].

Definition descriptors (names : list string) : PyDict.t json :=
  map (fun name => (name, JObject [])) names.

Fixpoint opening_brackets (s : string) : nat :=
  match s with
  | String c s' => if Ascii.eqb c "[" then S (opening_brackets s') else 0
  | EmptyString => 0
  end.

Definition deep_text : string :=
  string_of_list_ascii (repeat "["%char 2000).

Definition sample_files : PyDict.t (list Byte.byte) :=
  [ ("taesdxl_encoder.safetensors", file_image (header_text encoder_names));
    ("diffusion_pytorch_model.safetensors",
     file_image (header_text decoder_names));
    ("deep.safetensors", file_image deep_text) ].

Definition sample_json_loads (data : list Byte.byte) : outcome json :=
  let text := string_of_list_byte data in
  if String.eqb text (header_text encoder_names)
  then Return (JObject (descriptors encoder_names))
  else if String.eqb text (header_text decoder_names)
  then Return (JObject (descriptors decoder_names))
  else if (1000 <? opening_brackets text)%nat
  then Raise RecursionError
  else Raise JSONDecodeError.

Definition sample_runtime : runtime := {|
  os_path_getsize path :=
    match PyDict.get sample_files path with
    | Some content => Return (N.of_nat (List.length content))
    | None => Raise OSError
    end;
  open_rb path :=
    match PyDict.get sample_files path with
    | Some content => Return content
    | None => Raise OSError
    end;
  json_loads := sample_json_loads;
  safe_open path :=
    if String.eqb path "taesdxl_encoder.safetensors"
    then Return encoder_names
    else if String.eqb path "diffusion_pytorch_model.safetensors"
    then Return decoder_names
    else Raise SafetensorError
|}.

(** A store with one dictionary, used as an example. *)
Definition sample_heap : heap :=
  {[ 1%positive := [("transe.1.weight", FromFile "enc.safetensors" "1.weight")] ]}.

(** ** Further vocabulary and examples *)

(** The role a candidate must not belong to. *)
Definition opposite_role (role : string) : string :=
  if String.eqb role "encoder" then "decoder" else "encoder".

(** What examining one candidate amounts to: its header is read, taken as
    a dictionary, and classified for the role. *)
Definition examined (rt : runtime) (file role : string)
    (state_dict : PyDict.t json) (answer : bool) : Prop :=
  exists header,
    get_safetensors_header rt file DEFAULT_SIZE_LIMIT = Return header
    /\ as_state_dict header = Return state_dict
    /\ is_taesd_with_role file state_dict role = Return answer.


(** A world with files of three bytes that cannot even be opened. *)
Definition stub_runtime : runtime := {|
  os_path_getsize _ := Return 3%N;
  open_rb _ := Raise RecursionError;
  json_loads _ := Raise RecursionError;
  safe_open _ := Raise SafetensorError
|}.

(** ** Naming the output file *)

(** The objects [get_file_name_tag] is called with: one of the numpy scalar
    types float16 and float32, a string, a (finite) float, or [None]. *)
Inductive pyobject : Type :=
  | ObjDtype (d : dtype)
  | ObjStr (s : string)
  | ObjFloat (x : Q)
  | ObjNone.

(** [s.replace('.', '')] *)
Fixpoint remove_dots (s : string) : string :=
  match s with
  | EmptyString => EmptyString
  | String c s' =>
      if Ascii.eqb c "." then remove_dots s' else String c (remove_dots s')
  end.

(** [get_file_name_tag(object, prefix)]; [format_3g x] stands for
    [f"{x:.3g}"]. *)
Definition get_file_name_tag (format_3g : Q -> string) (object : pyobject)
    (prefix : string) : string :=
  let tag :=
    match object with
    | ObjDtype float16 => "fp16"
    | ObjDtype float32 => "fp32"
    | ObjStr s => if String.eqb s "f1" then "flux" else s
    | ObjFloat x => remove_dots (format_3g x)
    | ObjNone => ""
    end in
  if String.eqb tag "" then "" else prefix ++ tag.

(** [f"{number:02d}"] for a number that is not negative. *)
Definition format_02d (number : Z) : string :=
  if (number <? 10)%Z then "0" ++ Str.of_int number else Str.of_int number.

(** [f"{base_name}_{number:02d}{extension}"] *)
Definition numbered_path (base_name extension : string) (number : Z)
    : string :=
  base_name ++ "_" ++ format_02d number ++ extension.

(** The loop of [find_unique_path] from [number] on, [remaining] numbers of
    the range being left; [None] is falling out of the loop. *)
Fixpoint find_unique_loop (path_exists : string -> bool)
    (base_name extension : string) (number : Z) (remaining : nat)
    : option string :=
  match remaining with
  | O => None
  | S remaining' =>
      let new_path := numbered_path base_name extension number in
      if negb (path_exists new_path) || (number =? 999999)%Z
      then Some new_path
      else find_unique_loop path_exists base_name extension (number + 1)
             remaining'
  end.

(** [find_unique_path(path)], [path_exists] being [os.path.exists]; [None]
    is the implicit [return None] after the loop. *)
Definition find_unique_path (path_exists : string -> bool) (path : string)
    : option string :=
  if negb (path_exists path) then Some path
  else
    let '(base_name, extension) := OsPath.splitext path in
    find_unique_loop path_exists base_name extension 1
      (Z.to_nat (1000000 - 1)).

(** The last path [find_unique_path] tries for [path]. *)
Definition last_candidate (path : string) : string :=
  numbered_path (fst (OsPath.splitext path)) (snd (OsPath.splitext path))
    999999.

(** A directory that holds "model.safetensors" and "model_01.safetensors". *)
Definition sample_exists (path : string) : bool :=
  String.eqb path "model.safetensors"
  || String.eqb path "model_01.safetensors".

(** * Properties *)

(** ** Facts about strings *)

Section StringFacts.

Lemma length_append (a b : string) :
  String.length (a ++ b) = (String.length a + String.length b)%nat.
Proof. induction a as [|c a IH]; simpl; [reflexivity | now rewrite IH]. Qed.

Lemma append_empty_r (a : string) : a ++ "" = a.
Proof. induction a as [|c a IH]; simpl; [reflexivity | now rewrite IH]. Qed.


Lemma startswith_append (p r : string) : Str.startswith (p ++ r) p = true.
Proof.
  induction p as [|c p IH]; simpl; [reflexivity|].
  now rewrite Ascii.eqb_refl, IH.
Qed.

Lemma skip_append (p r : string) : Str.skip (String.length p) (p ++ r) = r.
Proof. induction p as [|c p IH]; simpl; [now destruct r | exact IH]. Qed.

Lemma take_append (p r : string) : Str.take (String.length p) (p ++ r) = p.
Proof. induction p as [|c p IH]; simpl; [reflexivity | now rewrite IH]. Qed.

Lemma take_skip (n : nat) (s : string) : Str.take n s ++ Str.skip n s = s.
Proof.
  revert s; induction n as [|n IH]; intros [|c s]; simpl; try reflexivity.
  now rewrite IH.
Qed.

Lemma length_skip (n : nat) (s : string) :
  String.length (Str.skip n s) = (String.length s - n)%nat.
Proof.
  revert s; induction n as [|n IH]; intros [|c s]; simpl; try reflexivity.
  apply IH.
Qed.

Lemma length_take (n : nat) (s : string) :
  (n <= String.length s)%nat -> String.length (Str.take n s) = n.
Proof.
  revert s; induction n as [|n IH]; intros [|c s]; simpl; intros H;
    try reflexivity; try lia.
  rewrite IH; [reflexivity | lia].
Qed.

(** [startswith] is the prefix relation. *)
Lemma startswith_inv (s p : string) :
  Str.startswith s p = true -> s = p ++ Str.skip (String.length p) s.
Proof.
  revert s; induction p as [|c p IH]; intros s H; simpl in *.
  - now destruct s.
  - destruct s as [|d s]; [discriminate|].
    apply andb_prop in H as [Hc Hp].
    apply Ascii.eqb_eq in Hc; subst d.
    simpl. f_equal. now apply IH.
Qed.

Lemma startswith_iff (s p : string) :
  Str.startswith s p = true <-> exists r, s = p ++ r.
Proof.
  split.
  - intros H. eexists. now apply startswith_inv.
  - intros [r ->]. apply startswith_append.
Qed.

(** [endswith] is the suffix relation. *)
Lemma endswith_append (q p : string) : Str.endswith (q ++ p) p = true.
Proof.
  unfold Str.endswith. rewrite length_append.
  apply andb_true_intro; split.
  - apply Nat.leb_le. lia.
  - replace (String.length q + String.length p - String.length p)%nat
      with (String.length q) by lia.
    rewrite skip_append. apply String.eqb_refl.
Qed.

Lemma endswith_inv (s p : string) :
  Str.endswith s p = true ->
  s = Str.take (String.length s - String.length p) s ++ p.
Proof.
  unfold Str.endswith. intros H.
  apply andb_prop in H as [_ H]. apply String.eqb_eq in H.
  rewrite <- H at 2. symmetry. apply take_skip.
Qed.

Lemma endswith_iff (s p : string) :
  Str.endswith s p = true <-> exists q, s = q ++ p.
Proof.
  split.
  - intros H. eexists. now apply endswith_inv.
  - intros [q ->]. apply endswith_append.
Qed.

(** Cutting a non-empty suffix off with [s[:-n]] leaves what precedes it. *)
Lemma slice_to_minus_append (q p : string) :
  p <> "" -> Str.slice_to_minus (String.length p) (q ++ p) = q.
Proof.
  intros Hp. destruct p as [|c p]; [congruence|].
  unfold Str.slice_to_minus.
  change (S (String.length p)) with (String.length (String c p)).
  rewrite length_append.
  replace (String.length q + String.length (String c p)
           - String.length (String c p))%nat with (String.length q) by lia.
  apply take_append.
Qed.

Lemma contains_startswith (sub s : string) :
  Str.startswith s sub = true -> Str.contains sub s = true.
Proof. intros H. destruct s; simpl; now rewrite H. Qed.

(** [sub in s] holds exactly when [s] can be cut around [sub]. *)
Lemma contains_iff (sub s : string) :
  Str.contains sub s = true <-> exists a b, s = a ++ sub ++ b.
Proof.
  split.
  - induction s as [|c s IH]; simpl; intros H.
    + rewrite orb_false_r in H. apply startswith_iff in H as [r Hr].
      exists "", r. exact Hr.
    + apply orb_prop in H as [H|H].
      * apply startswith_iff in H as [r Hr]. exists "", r. exact Hr.
      * destruct (IH H) as (a & b & ->). exists (String c a), b. reflexivity.
  - intros (a & b & ->). induction a as [|c a IH].
    + simpl. apply contains_startswith, startswith_append.
    + simpl. rewrite IH. apply orb_true_r.
Qed.

(** A prefix without a dot is decided inside the first dotted segment. *)
Lemma startswith_first_segment (p s : string) :
  Str.dot_free p = true ->
  Str.startswith (Str.first_segment s) p = Str.startswith s p.
Proof.
  unfold Str.first_segment.
  revert s; induction p as [|c p IH]; intros s Hp; [reflexivity|].
  cbn [Str.dot_free] in Hp. apply andb_prop in Hp as [Hc Hp].
  apply negb_true_iff in Hc.
  destruct s as [|d s]; [reflexivity|].
  cbn [Str.split_dot].
  destruct (Ascii.eqb d ".") eqn:Hd.
  - apply Ascii.eqb_eq in Hd; subst d. cbn [fst Str.startswith].
    rewrite Ascii.eqb_sym, Hc. reflexivity.
  - destruct (Str.split_dot s) as [h t] eqn:Es. cbn [fst Str.startswith].
    specialize (IH s Hp). rewrite Es in IH. cbn [fst] in IH. now rewrite IH.
Qed.

End StringFacts.

(** ** Facts about dictionaries: membership *)

Section DictMembership.
Context {V : Type}.
Implicit Types (d : PyDict.t V) (k : string).

Lemma mem_iff k d : PyDict.mem k d = true <-> In k (PyDict.keys d).
Proof.
  unfold PyDict.mem. rewrite existsb_exists. split.
  - intros (x & Hx & E). apply String.eqb_eq in E. now subst.
  - intros H. exists k. split; [exact H | apply String.eqb_refl].
Qed.


Lemma is_empty_keys d : PyDict.is_empty d = true <-> PyDict.keys d = [].
Proof. destruct d; simpl; split; congruence. Qed.
End DictMembership.

(** ** The family classifier *)

(** None of the four root names contains a dot. *)
Lemma root_names_dot_free (stem : string) :
  In stem TAESD_ROOT_NAMES -> Str.dot_free stem = true.
Proof.
  unfold TAESD_ROOT_NAMES. simpl.
  intros [<-|[<-|[<-|[<-|[]]]]]; reflexivity.
Qed.

(** The root-name test of [is_taesd], read on the top-level segment. *)
Lemma root_name_scan (keys : list string) :
  existsb (fun key => existsb (Str.startswith key) TAESD_ROOT_NAMES) keys = true
  <-> exists key stem,
        In key keys /\ In stem TAESD_ROOT_NAMES
        /\ Str.startswith (Str.first_segment key) stem = true.
Proof.
  rewrite existsb_exists. split.
  - intros (key & Hk & H). apply existsb_exists in H as (stem & Hs & H).
    exists key, stem. repeat split; try assumption.
    rewrite startswith_first_segment; [exact H | now apply root_names_dot_free].
  - intros (key & stem & Hk & Hs & H). exists key. split; [exact Hk|].
    apply existsb_exists. exists stem. split; [exact Hs|].
    rewrite <- startswith_first_segment; [exact H | now apply root_names_dot_free].
Qed.

(** C1. [is_taesd] answers [true] exactly on the sets that carry one of the
    fingerprints: the compact pair "3.conv.4.bias" with "8.conv.0.weight";
    the diffusers pair below "decoder.layers." (layers 3 and 8) or below
    "encoder.layers." (layers 4 and 8); or a key whose top-level segment
    begins with "taesd", "taesdxl", "taesd3" or "taef1". It answers [false]
    on every other set. *)
Theorem is_taesd_fingerprints {V : Type} (state_dict : PyDict.t V) :
  let keys := PyDict.keys state_dict in
  is_taesd state_dict = true <->
    (In "3.conv.4.bias" keys /\ In "8.conv.0.weight" keys)
    \/ (In "decoder.layers.3.conv.4.bias" keys
        /\ In "decoder.layers.8.conv.0.weight" keys)
    \/ (In "encoder.layers.4.conv.4.bias" keys
        /\ In "encoder.layers.8.conv.0.weight" keys)
    \/ (exists key stem,
          In key keys
          /\ In stem ["taesd"; "taesdxl"; "taesd3"; "taef1"]
          /\ Str.startswith (Str.first_segment key) stem = true).
Proof.
  cbv zeta. unfold is_taesd.
  rewrite <- !mem_iff.
  change ["taesd"; "taesdxl"; "taesd3"; "taef1"] with TAESD_ROOT_NAMES.
  rewrite <- root_name_scan.
  destruct (PyDict.mem "3.conv.4.bias" state_dict),
    (PyDict.mem "8.conv.0.weight" state_dict),
    (PyDict.mem "decoder.layers.3.conv.4.bias" state_dict),
    (PyDict.mem "decoder.layers.8.conv.0.weight" state_dict),
    (PyDict.mem "encoder.layers.4.conv.4.bias" state_dict),
    (PyDict.mem "encoder.layers.8.conv.0.weight" state_dict);
    cbn [andb]; intuition congruence.
Qed.

(** A family member has at least one key. *)
Lemma is_taesd_not_empty {V : Type} (state_dict : PyDict.t V) :
  is_taesd state_dict = true -> PyDict.is_empty state_dict = false.
Proof. destruct state_dict; [discriminate | reflexivity]. Qed.

(** ** The role classifier *)

Lemma role_scan (role : string) (keys : list string) :
  existsb (fun key => Str.contains role key || false) keys
  = existsb (Str.contains role) keys.
Proof.
  induction keys as [|k keys IH]; [reflexivity|].
  cbn [existsb]. now rewrite IH, orb_false_r.
Qed.

Lemma is_taesd_with_role_member {V : Type} (file_path : string)
    (state_dict : PyDict.t V) (role : string) :
  valid_role role ->
  is_taesd state_dict = true ->
  is_taesd_with_role file_path state_dict role
  = Return (existsb (Str.contains role) (PyDict.keys state_dict)
            || Str.contains role (lowered_stem file_path)).
Proof.
  intros Hrole Hfam. unfold is_taesd_with_role, lowered_stem.
  rewrite Hfam, (is_taesd_not_empty _ Hfam).
  destruct (OsPath.splitext (OsPath.basename file_path)) as [file_name ext].
  destruct Hrole as [-> | ->]; cbn -[Str.contains Str.lower];
    rewrite role_scan; now destruct (existsb _ _).
Qed.

(** C2. For a family member and a role among "encoder" and "decoder":
    when some key contains the role word the answer is [true] whatever the
    file is called; when no key contains it, the answer is whether the
    file's base name, extension stripped and lower-cased, contains it. *)
Theorem is_taesd_with_role_content_first {V : Type} (file_path : string)
    (state_dict : PyDict.t V) (role : string) :
  valid_role role ->
  is_taesd state_dict = true ->
  ((exists key, In key (PyDict.keys state_dict)
                /\ Str.contains role key = true) ->
   is_taesd_with_role file_path state_dict role = Return true)
  /\ ((forall key, In key (PyDict.keys state_dict) ->
                   Str.contains role key = false) ->
      is_taesd_with_role file_path state_dict role
      = Return (Str.contains role
                  (Str.lower
                     (fst (OsPath.splitext (OsPath.basename file_path)))))).
Proof.
  intros Hrole Hfam.
  rewrite (is_taesd_with_role_member _ _ _ Hrole Hfam). split.
  - intros (key & Hin & Hc).
    assert (E : existsb (Str.contains role) (PyDict.keys state_dict) = true).
    { apply existsb_exists. now exists key. }
    now rewrite E.
  - intros Hnone.
    assert (E : existsb (Str.contains role) (PyDict.keys state_dict) = false).
    { apply not_true_is_false. intros H.
      apply existsb_exists in H as (key & Hin & Hc).
      rewrite (Hnone key Hin) in Hc. discriminate. }
    now rewrite E.
Qed.

(** C10. On a set without tensor names the role classifier answers [false]
    for either role, whatever the file is called. *)
Theorem is_taesd_with_role_empty {V : Type} (file_path role : string) :
  valid_role role ->
  is_taesd_with_role file_path ([] : PyDict.t V) role = Return false.
Proof. intros [-> | ->]; reflexivity. Qed.

Lemma is_taesd_with_role_content_first_witness :
  valid_role "encoder"
  /\ is_taesd [("taesdxl_encoder.3.conv.4.bias", tt)] = true
  /\ is_taesd_with_role "models/taesdxl_decoder.safetensors"
       [("taesdxl_encoder.3.conv.4.bias", tt)] "encoder" = Return true.
Proof.
  split; [left; reflexivity|]. split; [reflexivity|].
  apply (is_taesd_with_role_content_first
           "models/taesdxl_decoder.safetensors"
           [("taesdxl_encoder.3.conv.4.bias", tt)] "encoder");
    [left; reflexivity | reflexivity |].
  exists "taesdxl_encoder.3.conv.4.bias". split; [left|]; reflexivity.
Defined.

Lemma is_taesd_with_role_empty_witness :
  valid_role "decoder"
  /\ is_taesd_with_role "models/taesd_decoder.safetensors"
       ([] : PyDict.t json) "decoder" = Return false.
Proof.
  split; [right; reflexivity|].
  apply (is_taesd_with_role_empty "models/taesd_decoder.safetensors" "decoder").
  right; reflexivity.
Defined.

(** ** The prefix resolver *)

(** The key [get_tensor_prefix] settles on: the first one, in iteration
    order, that ends with the postfix and does not contain the excluded
    word. *)
Lemma get_tensor_prefix_first_match {V : Type} (state_dict : PyDict.t V)
    (postfix : string) (not_containing : option string) :
  get_tensor_prefix state_dict postfix not_containing
  = match first_match (PyDict.keys state_dict) postfix not_containing with
    | Some key => Str.slice_to_minus (String.length postfix) key
    | None => ""
    end.
Proof.
  unfold get_tensor_prefix.
  induction (PyDict.keys state_dict) as [|key keys IH]; [reflexivity|].
  cbn [get_tensor_prefix_keys first_match find]. unfold qualifies at 1.
  destruct (Str.endswith key postfix); [|exact IH].
  destruct not_containing as [word|]; [|reflexivity].
  destruct (Str.contains word key); [exact IH | reflexivity].
Qed.

(** With a non-empty postfix the resolver returns what precedes the postfix
    in the first qualifying key, and the empty string when no key
    qualifies. *)
Lemma get_tensor_prefix_nonempty {V : Type} (state_dict : PyDict.t V)
    (postfix : string) (not_containing : option string) :
  postfix <> "" ->
  match first_match (PyDict.keys state_dict) postfix not_containing with
  | Some key =>
      key = get_tensor_prefix state_dict postfix not_containing ++ postfix
  | None => get_tensor_prefix state_dict postfix not_containing = ""
  end.
Proof.
  intros Hne. rewrite get_tensor_prefix_first_match.
  destruct (first_match _ _ _) as [key|] eqn:E; [|reflexivity].
  apply find_some in E as [_ Hq]. unfold qualifies in Hq.
  apply andb_prop in Hq as [He _]. apply endswith_iff in He as [q ->].
  now rewrite slice_to_minus_append.
Qed.

(** C3 (where the code departs from it). With the empty postfix every key
    ends with the postfix, and stripping it should leave the key itself;
    [key[:-0]] is the empty slice, so the resolver returns the empty string
    whatever the keys are. *)
Theorem get_tensor_prefix_empty_postfix {V : Type} (state_dict : PyDict.t V)
    (not_containing : option string) :
  get_tensor_prefix state_dict "" not_containing = "".
Proof.
  rewrite get_tensor_prefix_first_match.
  now destruct (first_match _ _ _).
Qed.

Example empty_postfix_on_abc :
  first_match ["abc"] "" None = Some "abc"
  /\ get_tensor_prefix [("abc", tt)] "" None = "".
Proof. split; reflexivity. Qed.

(** ** Facts about dictionaries: reading after writing *)

Section DictFacts.
Context {V : Type}.
Implicit Types (d ws : PyDict.t V) (k : string) (v : V).

Lemma get_set_eq d k v : PyDict.get (PyDict.set d k v) k = Some v.
Proof.
  induction d as [|[k' v'] d IH]; simpl.
  - now rewrite String.eqb_refl.
  - destruct (String.eqb k' k) eqn:E; simpl; now rewrite E.
Qed.

Lemma get_set_ne d k v k2 :
  k <> k2 -> PyDict.get (PyDict.set d k v) k2 = PyDict.get d k2.
Proof.
  intros Hne. induction d as [|[k' v'] d IH]; simpl.
  - apply String.eqb_neq in Hne. now rewrite Hne.
  - destruct (String.eqb k' k) eqn:E; simpl.
    + apply String.eqb_eq in E; subst k'.
      apply String.eqb_neq in Hne. now rewrite Hne.
    + now rewrite IH.
Qed.

Lemma get_set d k v k2 :
  PyDict.get (PyDict.set d k v) k2
  = if String.eqb k k2 then Some v else PyDict.get d k2.
Proof.
  destruct (String.eqb k k2) eqn:E.
  - apply String.eqb_eq in E; subst. apply get_set_eq.
  - apply String.eqb_neq in E. now apply get_set_ne.
Qed.

Lemma get_app d1 d2 k :
  PyDict.get (d1 ++ d2)%list k
  = match PyDict.get d1 k with
    | Some v => Some v
    | None => PyDict.get d2 k
    end.
Proof.
  induction d1 as [|[k' v'] d1 IH]; simpl; [reflexivity|].
  now destruct (String.eqb k' k).
Qed.

Lemma get_Some_In d k v : PyDict.get d k = Some v -> In (k, v) d.
Proof.
  induction d as [|[k' v'] d IH]; simpl; [discriminate|].
  destruct (String.eqb k' k) eqn:E.
  - apply String.eqb_eq in E. intros [= ->]. left. now subst.
  - intros H. right. now apply IH.
Qed.

Lemma get_None_iff d k : PyDict.get d k = None <-> ~ In k (PyDict.keys d).
Proof.
  induction d as [|[k' v'] d IH]; simpl; [tauto|].
  destruct (String.eqb k' k) eqn:E.
  - apply String.eqb_eq in E. split; [discriminate | tauto].
  - apply String.eqb_neq in E. rewrite IH. tauto.
Qed.



(** [update] replays the writes in order: the last write to a key wins,
    and keys never written keep what they had. *)
Lemma get_update d ws k :
  PyDict.get (PyDict.update d ws) k
  = match PyDict.get (rev ws) k with
    | Some v => Some v
    | None => PyDict.get d k
    end.
Proof.
  unfold PyDict.update. revert d.
  induction ws as [|[k' v'] ws IH]; intros d; simpl; [reflexivity|].
  rewrite IH, get_app. simpl.
  destruct (PyDict.get (rev ws) k); [reflexivity|].
  rewrite get_set. now destruct (String.eqb k' k).
Qed.

Lemma keys_set d k v k2 :
  In k2 (PyDict.keys (PyDict.set d k v)) <-> k2 = k \/ In k2 (PyDict.keys d).
Proof.
  rewrite <- !mem_iff.
  assert (H : forall d', PyDict.mem k2 d' = true
                         <-> PyDict.get d' k2 <> None).
  { intros d'. rewrite mem_iff. 
    destruct (PyDict.get d' k2) eqn:E.
    - split; [congruence|]. intros _.
      apply get_Some_In in E. change k2 with (fst (k2, v0)). now apply in_map.
    - apply get_None_iff in E. tauto. }
  rewrite !H, get_set.
  destruct (String.eqb k k2) eqn:E.
  - apply String.eqb_eq in E. subst. split; [auto | congruence].
  - apply String.eqb_neq in E. split; [auto|]. intros [->|]; congruence.
Qed.

Lemma keys_update d ws k :
  In k (PyDict.keys (PyDict.update d ws))
  <-> In k (PyDict.keys ws) \/ In k (PyDict.keys d).
Proof.
  unfold PyDict.update. revert d.
  induction ws as [|[k' v'] ws IH]; intros d; simpl; [tauto|].
  rewrite IH, keys_set. intuition congruence.
Qed.


End DictFacts.

(** ** The tensor loader *)

Lemma append_inj_l (a b c : string) : a ++ b = a ++ c -> b = c.
Proof.
  induction a as [|x a IH]; simpl; [easy|].
  intros [= H]. now apply IH.
Qed.

(** What [ensure_dot] does: nothing to the empty prefix and to one that ends
    with a dot, and it appends a dot to any other. *)
Lemma ensure_dot_spec (prefix : string) :
  (prefix = "" -> ensure_dot prefix = "")
  /\ (prefix <> "" ->
      Str.endswith (ensure_dot prefix) "." = true
      /\ (ensure_dot prefix = prefix \/ ensure_dot prefix = prefix ++ ".")).
Proof.
  unfold ensure_dot. split.
  - intros ->. reflexivity.
  - intros Hne. apply String.eqb_neq in Hne. rewrite Hne. cbn [negb andb].
    destruct (Str.endswith prefix ".") eqn:E; cbn [negb].
    + auto.
    + split; [apply endswith_append | auto].
Qed.




(** ** Facts about decimal numerals *)




Lemma digit_value_nonneg (c : ascii) :
  Str.is_digit c = true -> (0 <= Str.digit_value c)%Z.
Proof.
  unfold Str.is_digit, Str.digit_value. intros H.
  apply andb_prop in H as [H _]. apply Nat.leb_le in H. lia.
Qed.

Lemma int_from_nonneg (s : string) (acc : Z) :
  Str.all_digits s = true -> (0 <= acc)%Z -> (0 <= Str.int_from acc s)%Z.
Proof.
  revert acc. induction s as [|c s IH]; intros acc H Hacc; [exact Hacc|].
  cbn [Str.all_digits] in H. apply andb_prop in H as [Hc Hs].
  cbn [Str.int_from]. apply IH; [exact Hs|].
  pose proof (digit_value_nonneg c Hc). lia.
Qed.

Lemma int_nonneg (s : string) :
  Str.isdecimal s = true -> (0 <= Str.int s)%Z.
Proof.
  destruct s as [|c s]; [discriminate|]. intros H.
  apply int_from_nonneg; [exact H | lia].
Qed.

(** [str] on integers is injective and never writes a dot. *)
Lemma of_int_inj (a b : Z) : Str.of_int a = Str.of_int b -> a = b.
Proof.
  unfold Str.of_int. intros H. apply DecimalZ.to_int_inj.
  assert (Hnn : forall z, Z.to_int z <> Decimal.Pos Decimal.Nil
                          /\ Z.to_int z <> Decimal.Neg Decimal.Nil).
  { intros [|p|p]; simpl; split; try discriminate;
      intros [= E]; now apply (Unsigned.to_uint_nonnil p). }
  pose proof (NilZero.isi (Z.to_int a) (proj1 (Hnn a)) (proj2 (Hnn a))) as Ha.
  pose proof (NilZero.isi (Z.to_int b) (proj1 (Hnn b)) (proj2 (Hnn b))) as Hb.
  rewrite H in Ha. congruence.
Qed.

Lemma string_of_uint_dot_free (d : Decimal.uint) :
  Str.dot_free (NilEmpty.string_of_uint d) = true.
Proof. induction d; simpl; auto. Qed.

Lemma of_int_dot_free (n : Z) : Str.dot_free (Str.of_int n) = true.
Proof.
  unfold Str.of_int.
  assert (H : forall d, Str.dot_free (NilZero.string_of_uint d) = true).
  { intros d. destruct d; try reflexivity; apply string_of_uint_dot_free. }
  destruct (Z.to_int n) as [d|d]; simpl; [apply H|].
  apply H.
Qed.

(** Splitting at the first dot, when what comes first has no dot. *)
Lemma split_dot_append (seg rest : string) :
  Str.dot_free seg = true ->
  Str.split_dot (seg ++ rest)
  = (seg ++ fst (Str.split_dot rest), snd (Str.split_dot rest)).
Proof.
  induction seg as [|c seg IH]; intros H.
  - simpl. now destruct (Str.split_dot rest).
  - cbn [Str.dot_free] in H. apply andb_prop in H as [Hc Hs].
    apply negb_true_iff in Hc.
    change (String c seg ++ rest) with (String c (seg ++ rest)).
    cbn [Str.split_dot]. rewrite Hc, (IH Hs). reflexivity.
Qed.

(** The tail that [shift_layers] glues back: nothing, or a dot and more. *)
Lemma split_dot_suffix (seg rest : string) :
  Str.dot_free seg = true ->
  rest = "" \/ (exists r, rest = "." ++ r) ->
  exists part1,
    Str.split_dot (seg ++ rest) = (seg, part1)
    /\ match part1 with Some r => "." ++ r | None => "" end = rest.
Proof.
  intros Hseg Hrest. rewrite (split_dot_append _ _ Hseg).
  destruct Hrest as [-> | [r ->]]; simpl; rewrite append_empty_r; eauto.
Qed.

(** ** The layer realigner *)

Section ShiftLayers.
Context {V : Type}.
Implicit Types (d : PyDict.t V) (k key prefix : string) (offset : Z) (v : V).

Lemma shift_loop_as_update d prefix offset (fixed_dict : PyDict.t V) :
  fold_left
    (fun fixed_dict '(key, tensor) =>
       if negb (Str.startswith key prefix)
       then PyDict.set fixed_dict key tensor
       else
         let '(part0, part1) :=
           Str.split_dot (Str.skip (String.length prefix) key) in
         if negb (Str.isdecimal part0)
         then PyDict.set fixed_dict key tensor
         else
           let new_layer_number := (Str.int part0 + offset)%Z in
           let dot_suffix :=
             match part1 with
             | Some rest => "." ++ rest
             | None => ""
             end in
           let fixed_key :=
             prefix ++ Str.of_int new_layer_number ++ dot_suffix in
           PyDict.set fixed_dict fixed_key tensor)
    d fixed_dict
  = PyDict.update fixed_dict
      (map (fun kv => (fixed_key_of prefix offset (fst kv), snd kv)) d).
Proof.
  revert fixed_dict. induction d as [|[key tensor] d IH]; intros fixed_dict;
    [reflexivity|].
  cbn [fold_left map]. rewrite IH. unfold PyDict.update at 2.
  cbn [fold_left fst snd]. unfold fixed_key_of.
  destruct (Str.startswith key prefix); cbn [negb]; [|reflexivity].
  destruct (Str.split_dot _) as [part0 part1].
  destruct (Str.isdecimal part0); reflexivity.
Qed.

Lemma shift_layers_as_update d prefix offset :
  shift_layers d prefix offset
  = PyDict.update []
      (map (fun kv => (fixed_key_of prefix offset (fst kv), snd kv)) d).
Proof. apply shift_loop_as_update. Qed.

(** The keys of the result are the names the keys are filed under. *)
Lemma shift_layers_keys d prefix offset name :
  In name (PyDict.keys (shift_layers d prefix offset))
  <-> exists key, In key (PyDict.keys d)
                  /\ name = fixed_key_of prefix offset key.
Proof.
  rewrite shift_layers_as_update, keys_update. unfold PyDict.keys.
  rewrite map_map. cbn [fst map]. rewrite in_map_iff. split.
  - intros [(kv & <- & Hin) | []]. exists (fst kv). split; [|reflexivity].
    now apply in_map.
  - intros (key & Hin & ->). left.
    apply in_map_iff in Hin as (kv & <- & Hin). now exists kv.
Qed.






End ShiftLayers.

(** What the result holds under a name: the tensor of the last key, in
    iteration order, that is filed under it. *)
Lemma shift_layers_last_wins {V : Type} (state_dict : PyDict.t V)
    (layer_prefix : string) (layer_offset : Z) (name : string) :
  PyDict.get (shift_layers state_dict layer_prefix layer_offset) name
  = PyDict.get
      (rev (map (fun kv => (fixed_key_of layer_prefix layer_offset (fst kv),
                            snd kv))
              state_dict))
      name.
Proof.
  rewrite shift_layers_as_update, get_update.
  now destruct (PyDict.get (rev _) name).
Qed.





(** A forward shift never files a tensor under layer 0 of the prefix. *)
Lemma shift_never_layer_zero (layer_prefix : string) (layer_offset : Z)
    (key rest : string) :
  (0 < layer_offset)%Z ->
  rest = "" \/ (exists r, rest = "." ++ r) ->
  fixed_key_of layer_prefix layer_offset key <> layer_prefix ++ "0" ++ rest.
Proof.
  intros Hpos Hrest E.
  assert (Hsplit : exists part1,
             Str.split_dot ("0" ++ rest) = ("0", part1)
             /\ match part1 with Some r => "." ++ r | None => "" end = rest).
  { now apply split_dot_suffix. }
  destruct Hsplit as (p1 & Hsplit & _).
  unfold fixed_key_of in E.
  destruct (Str.startswith key layer_prefix) eqn:Hs.
  - destruct (Str.split_dot (Str.skip (String.length layer_prefix) key))
      as [part0 part1] eqn:Hk.
    destruct (Str.isdecimal part0) eqn:Hdec.
    + apply append_inj_l in E.
      assert (Hs0 : exists p, Str.split_dot
                 (Str.of_int (Str.int part0 + layer_offset)
                  ++ match part1 with Some r => "." ++ r | None => "" end)
               = (Str.of_int (Str.int part0 + layer_offset), p)).
      { destruct (split_dot_suffix
                    (Str.of_int (Str.int part0 + layer_offset))
                    (match part1 with Some r => "." ++ r | None => "" end)
                    (of_int_dot_free _)) as (p & Hp & _); [|eauto].
        destruct part1; eauto. }
      destruct Hs0 as (p & Hp). rewrite E, Hsplit in Hp.
      injection Hp as Hz _. change "0" with (Str.of_int 0) in Hz.
      apply of_int_inj in Hz. pose proof (int_nonneg _ Hdec). lia.
    + subst key. rewrite skip_append, Hsplit in Hk.
      injection Hk as <- _. discriminate.
  - subst key. now rewrite startswith_append in Hs.
Qed.

(** ** The store *)

Section HeapFacts.
Implicit Types (h : heap) (l : loc) (d : PyDict.t ndarray).

Lemma alloc_fresh d h : h !! fst (alloc d h) = None.
Proof. apply not_elem_of_dom, is_fresh. Qed.

Lemma alloc_lookup d h : snd (alloc d h) !! fst (alloc d h) = Some d.
Proof. apply lookup_insert_eq. Qed.

Lemma alloc_other d h l :
  is_Some (h !! l) -> snd (alloc d h) !! l = h !! l.
Proof.
  intros Hl. apply lookup_insert_ne. intros E.
  pose proof (alloc_fresh d h) as Hf. cbn [alloc fst] in Hf.
  rewrite <- E, Hf in Hl. now destruct Hl.
Qed.

Lemma deref_lookup h l d : h !! l = Some d -> deref h l = d.
Proof. intros H. unfold deref. now rewrite H. Qed.

(** Updating the dictionary behind a reference replaces the object stored
    there and nothing else. *)
Lemma dict_update_allocated l other h d :
  h !! l = Some d ->
  dict_update l other h = <[l := PyDict.update d other]> h.
Proof.
  intros Hl. unfold dict_update. apply map_eq. intros l'.
  destruct (decide (l = l')) as [<-|Hne].
  - now rewrite lookup_alter_eq, lookup_insert_eq, Hl.
  - now rewrite lookup_alter_ne, lookup_insert_ne.
Qed.

Lemma insert_xbridge_layer_allocated l sigma prefix dt h d :
  h !! l = Some d ->
  insert_xbridge_layer l sigma prefix dt h
  = <[l := PyDict.set d (prefix ++ "gaussian_blur_sigma") (NpArray sigma dt)]> h.
Proof. intros Hl. unfold insert_xbridge_layer. now rewrite (dict_update_allocated _ _ _ d). Qed.

Lemma insert_emulation_layer_allocated l scale shift prefix dt h d :
  h !! l = Some d ->
  insert_emulation_layer l scale shift prefix dt h
  = <[l := PyDict.set
             (PyDict.set d (prefix ++ "scale_factor") (NpArray scale dt))
             (prefix ++ "shift_factor") (NpArray shift dt)]> h.
Proof.
  intros Hl. unfold insert_emulation_layer.
  rewrite (dict_update_allocated _ _ h d Hl).
  erewrite dict_update_allocated by apply lookup_insert_eq.
  now rewrite insert_insert_eq.
Qed.
End HeapFacts.

(** ** The assembler *)

Lemma valid_format_entry (latent_format : string) :
  in_tuple latent_format VALID_LATENT_FORMATS = true ->
  exists pair,
    PyDict.get SCALE_AND_SHIFT_BY_LATENT_FORMAT latent_format = Some pair.
Proof.
  unfold in_tuple, VALID_LATENT_FORMATS. rewrite existsb_exists.
  intros (x & Hin & E). apply String.eqb_eq in E. subst x.
  simpl in Hin. destruct Hin as [<-|[<-|[<-|[<-|[]]]]]; eexists; reflexivity.
Qed.

Lemma entry_valid_format (latent_format : string) (pair : Q * Q) :
  PyDict.get SCALE_AND_SHIFT_BY_LATENT_FORMAT latent_format = Some pair ->
  in_tuple latent_format VALID_LATENT_FORMATS = true.
Proof.
  intros H. apply get_Some_In in H.
  unfold in_tuple, VALID_LATENT_FORMATS. apply existsb_exists.
  exists latent_format. split; [|apply String.eqb_refl].
  change latent_format with (fst (latent_format, pair)). now apply in_map.
Qed.

(** The conversion loop is a replay of one write per entry. *)
Lemma convert_loop_as_update (target : dtype) (d converted : PyDict.t ndarray) :
  fold_left
    (fun converted '(key, tensor) =>
       PyDict.set converted key (AsType tensor target))
    d converted
  = PyDict.update converted (map (fun kv => (fst kv, AsType (snd kv) target)) d).
Proof.
  revert converted. induction d as [|[key tensor] d IH]; intros converted;
    [reflexivity|].
  cbn [fold_left map]. now rewrite IH.
Qed.

(** What a successful run of the assembler leaves in the store: a dictionary
    that did not exist before, holding [assembled]; the dictionaries that
    existed before are as they were. *)
Lemma build_tiny_transcoder_returns (rt : runtime)
    (encoder_path_and_prefix decoder_path_and_prefix : string * string)
    (input_latent_format output_latent_format : string)
    (input_pair output_pair : Q * Q)
    (sigma : option Q) (emulation : bool) (dt : option dtype) (h : heap)
    (encoder_tensors decoder_tensors : PyDict.t ndarray) :
  PyDict.get SCALE_AND_SHIFT_BY_LATENT_FORMAT input_latent_format
  = Some input_pair ->
  PyDict.get SCALE_AND_SHIFT_BY_LATENT_FORMAT output_latent_format
  = Some output_pair ->
  load_tensors rt (fst encoder_path_and_prefix) (snd encoder_path_and_prefix)
    ENCODER_PREFIX = Return encoder_tensors ->
  load_tensors rt (fst decoder_path_and_prefix) (snd decoder_path_and_prefix)
    DECODER_PREFIX = Return decoder_tensors ->
  exists l h',
    build_tiny_transcoder rt encoder_path_and_prefix decoder_path_and_prefix
      input_latent_format output_latent_format sigma emulation dt h
    = Return (l, h')
    /\ h !! l = None
    /\ h' !! l
       = Some (assembled encoder_tensors decoder_tensors input_pair
                 output_pair sigma emulation dt)
    /\ (forall other, is_Some (h !! other) -> h' !! other = h !! other).
Proof.
  intros Hin Hout Henc Hdec. unfold build_tiny_transcoder.
  rewrite (entry_valid_format _ _ Hin), (entry_valid_format _ _ Hout).
  cbn [py_assert bind]. rewrite Henc, Hdec. cbn [bind].
  unfold subscript. rewrite Hin, Hout. cbn [bind].
  unfold assembled, converted_stage, emulated_stage, bridged_stage,
    shifted_stage.
  set (merged := PyDict.merge encoder_tensors decoder_tensors).
  (* the merged dictionary *)
  destruct (alloc merged h) as [l0 h0] eqn:A0.
  assert (I0 : h0 !! l0 = Some merged /\ h !! l0 = None
               /\ forall other, is_Some (h !! other) -> h0 !! other = h !! other).
  { pose proof (alloc_lookup merged h) as H1.
    pose proof (alloc_fresh merged h) as H2.
    pose proof (alloc_other merged h) as H3.
    rewrite A0 in H1, H2, H3. auto. }
  clear A0. destruct I0 as (P0 & F0 & E0).
  rewrite (deref_lookup _ _ _ P0).
  change (DECODER_PREFIX ++ "0.weight") with "transd.0.weight".
  change DECODER_PREFIX with "transd.".
  (* the realigned dictionary *)
  set (shifted := if PyDict.mem "transd.0.weight" merged
                  then shift_layers merged "transd." 1 else merged).
  assert (I1 : exists l1 h1,
             (if PyDict.mem "transd.0.weight" merged
              then alloc (shift_layers merged "transd." 1) h0
              else (l0, h0)) = (l1, h1)
             /\ h1 !! l1 = Some shifted /\ h !! l1 = None
             /\ forall other, is_Some (h !! other) -> h1 !! other = h !! other).
  { subst shifted. destruct (PyDict.mem "transd.0.weight" merged).
    - destruct (alloc (shift_layers merged "transd." 1) h0) as [l1 h1] eqn:A1.
      pose proof (alloc_lookup (shift_layers merged "transd." 1) h0) as H1.
      pose proof (alloc_fresh (shift_layers merged "transd." 1) h0) as H2.
      pose proof (alloc_other (shift_layers merged "transd." 1) h0) as H3.
      rewrite A1 in H1, H2, H3. cbn [fst snd] in *.
      exists l1, h1. repeat split; try assumption.
      + destruct (h !! l1) eqn:El; [|reflexivity].
        rewrite <- (E0 l1) in El by (rewrite El; eauto). congruence.
      + intros other Ho. rewrite H3; [now apply E0|].
        rewrite (E0 other Ho). exact Ho.
    - exists l0, h0. auto. }
  destruct I1 as (l1 & h1 & -> & P1 & F1 & E1). clearbody shifted.
  clear P0 F0 E0 l0 h0 merged.
  (* the in-place steps keep the reference and leave the rest alone *)
  assert (Hput : forall (hc : heap) d d',
             hc !! l1 = Some d ->
             (forall other, is_Some (h !! other) -> hc !! other = h !! other) ->
             <[l1 := d']> hc !! l1 = Some d'
             /\ forall other, is_Some (h !! other) ->
                              <[l1 := d']> hc !! other = h !! other).
  { intros hc d d' _ Hc. split; [apply lookup_insert_eq|].
    intros other Ho. rewrite lookup_insert_ne; [now apply Hc|].
    intros <-. rewrite F1 in Ho. now destruct Ho. }
  set (bridged := match float_truthy sigma with
                  | Some s => PyDict.set shifted "transx.gaussian_blur_sigma"
                                (NpArray s float32)
                  | None => shifted
                  end).
  assert (I2 : exists h2,
             match float_truthy sigma with
             | Some s => insert_xbridge_layer l1 s XBRIDGE_PREFIX float32 h1
             | None => h1
             end = h2
             /\ h2 !! l1 = Some bridged
             /\ forall other, is_Some (h !! other) -> h2 !! other = h !! other).
  { subst bridged. destruct (float_truthy sigma) as [s|].
    - eexists. split; [reflexivity|].
      rewrite (insert_xbridge_layer_allocated _ _ _ _ _ _ P1).
      now apply (Hput h1 shifted).
    - exists h1. auto. }
  destruct I2 as (h2 & -> & P2 & E2). clearbody bridged.
  clear P1 E1 h1 shifted.
  set (emulated := if emulation then _ else bridged).
  assert (I3 : exists h3,
             (if emulation
              then Return
                     (insert_emulation_layer l1 (fst output_pair)
                        (snd output_pair) OUTPUT_EMULATION_PREFIX float32
                        (insert_emulation_layer l1 (fst input_pair)
                           (snd input_pair) INPUT_EMULATION_PREFIX float32 h2))
              else Return h2) = Return h3
             /\ h3 !! l1 = Some emulated
             /\ forall other, is_Some (h !! other) -> h3 !! other = h !! other).
  { subst emulated. destruct emulation.
    - eexists. split; [reflexivity|].
      rewrite (insert_emulation_layer_allocated _ _ _ _ _ h2 bridged P2).
      destruct (Hput h2 bridged
                  (PyDict.set
                     (PyDict.set bridged (INPUT_EMULATION_PREFIX ++ "scale_factor")
                        (NpArray (fst input_pair) float32))
                     (INPUT_EMULATION_PREFIX ++ "shift_factor")
                     (NpArray (snd input_pair) float32)) P2 E2) as [P E].
      rewrite (insert_emulation_layer_allocated _ _ _ _ _ _ _ P).
      now apply (Hput _ _ _ P).
    - exists h2. auto. }
  destruct I3 as (h3 & -> & P3 & E3). clearbody emulated.
  cbn [bind]. rewrite (deref_lookup _ _ _ P3).
  destruct dt as [target|].
  - rewrite convert_loop_as_update.
    set (converted := PyDict.update [] _).
    destruct (alloc converted h3) as [l4 h4] eqn:A4.
    pose proof (alloc_lookup converted h3) as H1.
    pose proof (alloc_fresh converted h3) as H2.
    pose proof (alloc_other converted h3) as H3.
    rewrite A4 in H1, H2, H3. cbn [fst snd] in *.
    exists l4, h4. repeat split; try assumption.
    + destruct (h !! l4) eqn:El; [|reflexivity].
      rewrite <- (E3 l4) in El by (rewrite El; eauto). congruence.
    + intros other Ho. rewrite H3; [now apply E3|].
      rewrite (E3 other Ho). exact Ho.
  - exists l1, h3. auto.
Qed.

(** A run of the assembler that returns has allocated what it returns and
    has left the dictionaries that existed before as they were. *)
Lemma build_tiny_transcoder_frame (rt : runtime)
    (encoder_path_and_prefix decoder_path_and_prefix : string * string)
    (input_latent_format output_latent_format : string)
    (sigma : option Q) (emulation : bool) (dt : option dtype) (h : heap)
    (l : loc) (h' : heap) :
  build_tiny_transcoder rt encoder_path_and_prefix decoder_path_and_prefix
    input_latent_format output_latent_format sigma emulation dt h
  = Return (l, h') ->
  h !! l = None
  /\ forall other, is_Some (h !! other) -> h' !! other = h !! other.
Proof.
  intros H.
  destruct (in_tuple input_latent_format VALID_LATENT_FORMATS) eqn:Ei.
  2: { unfold build_tiny_transcoder in H. rewrite Ei in H. discriminate. }
  destruct (in_tuple output_latent_format VALID_LATENT_FORMATS) eqn:Eo.
  2: { unfold build_tiny_transcoder in H. rewrite Ei, Eo in H. discriminate. }
  destruct (load_tensors rt (fst encoder_path_and_prefix)
              (snd encoder_path_and_prefix) ENCODER_PREFIX)
    as [enc|e] eqn:Le.
  2: { unfold build_tiny_transcoder in H. rewrite Ei, Eo in H.
       cbn [py_assert bind] in H. rewrite Le in H. discriminate. }
  destruct (load_tensors rt (fst decoder_path_and_prefix)
              (snd decoder_path_and_prefix) DECODER_PREFIX)
    as [dec|e] eqn:Ld.
  2: { unfold build_tiny_transcoder in H. rewrite Ei, Eo in H.
       cbn [py_assert bind] in H. rewrite Le in H. cbn [bind] in H.
       rewrite Ld in H. discriminate. }
  destruct (valid_format_entry _ Ei) as (ip & Hip).
  destruct (valid_format_entry _ Eo) as (op & Hop).
  destruct (build_tiny_transcoder_returns rt _ _ _ _ ip op sigma emulation dt h
              enc dec Hip Hop Le Ld) as (l2 & h2 & Hb & Hf & _ & He).
  rewrite Hb in H. injection H as <- <-. auto.
Qed.

(** ** The auxiliary layer injectors *)

(** C8 (as the code has it). Both injectors work in place on the dictionary
    object they are given and return nothing: afterwards the same reference
    holds the new constants under the target prefix, every other entry of
    that dictionary is as before, every other object of the store is as
    before, and the store holds no new object. The assembler, for its part,
    returns a dictionary that did not exist before and leaves the given one
    as it was. *)
Theorem injectors_update_in_place (state_dict : loc) (h : heap)
    (d : PyDict.t ndarray) (target_prefix : string) (dt : dtype)
    (sigma scale shift : Q) :
  h !! state_dict = Some d ->
  let hx := insert_xbridge_layer state_dict sigma target_prefix dt h in
  let he := insert_emulation_layer state_dict scale shift target_prefix dt h in
  (PyDict.get (deref hx state_dict) (target_prefix ++ "gaussian_blur_sigma")
   = Some (NpArray sigma dt)
   /\ (forall key, key <> target_prefix ++ "gaussian_blur_sigma" ->
                   PyDict.get (deref hx state_dict) key = PyDict.get d key)
   /\ (forall other, other <> state_dict -> hx !! other = h !! other)
   /\ dom hx = dom h)
  /\ (PyDict.get (deref he state_dict) (target_prefix ++ "scale_factor")
      = Some (NpArray scale dt)
      /\ PyDict.get (deref he state_dict) (target_prefix ++ "shift_factor")
         = Some (NpArray shift dt)
      /\ (forall key, key <> target_prefix ++ "scale_factor" ->
                      key <> target_prefix ++ "shift_factor" ->
                      PyDict.get (deref he state_dict) key = PyDict.get d key)
      /\ (forall other, other <> state_dict -> he !! other = h !! other)
      /\ dom he = dom h)
  /\ (forall rt encoder_path_and_prefix decoder_path_and_prefix
              input_latent_format output_latent_format
              xbridge_gaussian_blur_sigma include_decoderencoder_emulation
              target l h',
        build_tiny_transcoder rt encoder_path_and_prefix
          decoder_path_and_prefix input_latent_format output_latent_format
          xbridge_gaussian_blur_sigma include_decoderencoder_emulation
          target h
        = Return (l, h') ->
        h !! l = None /\ h' !! state_dict = Some d).
Proof.
  intros Hl hx he. subst hx he.
  rewrite (insert_xbridge_layer_allocated _ _ _ _ _ d Hl).
  rewrite (insert_emulation_layer_allocated _ _ _ _ _ _ d Hl).
  assert (Hdom : forall d', dom (<[state_dict := d']> h) = dom h).
  { intros d'. apply dom_insert_lookup_L. now exists d. }
  assert (Hneq : target_prefix ++ "scale_factor"
                 <> target_prefix ++ "shift_factor").
  { intros E. apply append_inj_l in E. discriminate. }
  split; [|split].
  - erewrite deref_lookup by apply lookup_insert_eq. repeat split.
    + apply get_set_eq.
    + intros key Hk. now rewrite get_set_ne.
    + intros other Ho. now rewrite lookup_insert_ne.
    + apply Hdom.
  - erewrite deref_lookup by apply lookup_insert_eq. repeat split.
    + rewrite get_set_ne by (intros E; now apply Hneq). apply get_set_eq.
    + apply get_set_eq.
    + intros key Hk1 Hk2. now rewrite !get_set_ne.
    + intros other Ho. now rewrite lookup_insert_ne.
    + apply Hdom.
  - intros rt ep dp fi fo sig emu target l h' Hb.
    destruct (build_tiny_transcoder_frame _ _ _ _ _ _ _ _ _ _ _ Hb)
      as [Hfresh Hframe].
    split; [exact Hfresh|]. rewrite Hframe; [exact Hl | now exists d].
Qed.

Lemma injectors_update_in_place_witness :
  sample_heap !! 1%positive
  = Some [("transe.1.weight", FromFile "enc.safetensors" "1.weight")]
  /\ PyDict.get
       (deref (insert_xbridge_layer 1%positive 0.5 "transx." float32 sample_heap)
          1%positive)
       ("transx." ++ "gaussian_blur_sigma")
     = Some (NpArray 0.5 float32).
Proof.
  split; [reflexivity|].
  apply (injectors_update_in_place 1%positive sample_heap
           [("transe.1.weight", FromFile "enc.safetensors" "1.weight")]
           "transx." float32 0.5 0 0 eq_refl).
Defined.

(** C8 (as stated) fails: the bridge injector changes the dictionary it is
    given, under the same reference, and allocates no dictionary for its
    result. *)
Lemma injector_mutates_its_argument :
  deref sample_heap 1%positive
  = [("transe.1.weight", FromFile "enc.safetensors" "1.weight")]
  /\ deref (insert_xbridge_layer 1%positive 0.5 "transx." float32 sample_heap)
       1%positive
     = [("transe.1.weight", FromFile "enc.safetensors" "1.weight");
        ("transx.gaussian_blur_sigma", NpArray 0.5 float32)]
  /\ deref (insert_xbridge_layer 1%positive 0.5 "transx." float32 sample_heap)
       1%positive
     <> deref sample_heap 1%positive
  /\ dom (insert_xbridge_layer 1%positive 0.5 "transx." float32 sample_heap)
     = dom sample_heap.
Proof.
  assert (E : insert_xbridge_layer 1%positive 0.5 "transx." float32 sample_heap
              = <[1%positive :=
                    [("transe.1.weight", FromFile "enc.safetensors" "1.weight");
                     ("transx.gaussian_blur_sigma", NpArray 0.5 float32)]]>
                  sample_heap).
  { now rewrite (insert_xbridge_layer_allocated _ _ _ _ _
                   [("transe.1.weight", FromFile "enc.safetensors" "1.weight")]). }
  rewrite E. unfold sample_heap.
  repeat split. discriminate.
Qed.

(** ** The header inspector *)

(** The cases the inspector answers with the empty list: a file shorter than
    a length prefix, a declared length above the limit, and any failure that
    is an instance of one of the three classes of its [except] clause
    (a decode error is a [ValueError], an input/output error an [OSError]). *)
Lemma get_safetensors_header_empty (rt : runtime) (file_path : string)
    (size_limit : N) :
  (forall size,
      os_path_getsize rt file_path = Return size -> (size < 8)%N ->
      get_safetensors_header rt file_path size_limit = Return (JArray []))
  /\ (forall size f header_length,
        os_path_getsize rt file_path = Return size ->
        open_rb rt file_path = Return f ->
        struct_unpack_Q (firstn 8 f) = Return header_length ->
        (size_limit < header_length)%N ->
        get_safetensors_header rt file_path size_limit = Return (JArray []))
  /\ (forall e,
        os_path_getsize rt file_path = Raise e ->
        existsb (isinstance e) [ValueError; JSONDecodeError; OSError] = true ->
        get_safetensors_header rt file_path size_limit = Return (JArray []))
  /\ (forall size e,
        os_path_getsize rt file_path = Return size ->
        open_rb rt file_path = Raise e ->
        existsb (isinstance e) [ValueError; JSONDecodeError; OSError] = true ->
        get_safetensors_header rt file_path size_limit = Return (JArray []))
  /\ (forall size f header_length e,
        os_path_getsize rt file_path = Return size ->
        open_rb rt file_path = Return f ->
        struct_unpack_Q (firstn 8 f) = Return header_length ->
        json_loads rt (firstn (N.to_nat header_length) (skipn 8 f)) = Raise e ->
        existsb (isinstance e) [ValueError; JSONDecodeError; OSError] = true ->
        get_safetensors_header rt file_path size_limit = Return (JArray [])).
Proof.
  unfold get_safetensors_header. repeat split.
  - intros size -> Hs. apply N.ltb_lt in Hs. cbn [bind]. now rewrite Hs.
  - intros size f n -> -> Hn Hlim. cbn [bind]. rewrite Hn. cbn [bind].
    apply N.ltb_lt in Hlim. rewrite Hlim.
    now destruct (size <? 8)%N.
  - intros e -> He. cbn [bind try_except]. now rewrite He.
  - intros size e -> -> He. cbn [bind].
    destruct (size <? 8)%N; cbn [try_except]; [reflexivity | now rewrite He].
  - intros size f n e -> -> Hn Hj He. cbn [bind]. rewrite Hn. cbn [bind].
    destruct (size <? 8)%N; [reflexivity|].
    destruct (size_limit <? n)%N; [reflexivity|].
    rewrite Hj. cbn [try_except]. now rewrite He.
Qed.

(** C6 (where the code departs from it). When the file is long enough, its
    declared header length is within the limit, and decoding the header
    fails with an exception that is not an instance of [ValueError],
    [JSONDecodeError] or [OSError], the inspector does not return the empty
    result: the exception reaches the caller. *)
Theorem get_safetensors_header_propagates (rt : runtime) (file_path : string)
    (size_limit size header_length : N) (f : list Byte.byte) (e : exception) :
  os_path_getsize rt file_path = Return size ->
  (8 <= size)%N ->
  open_rb rt file_path = Return f ->
  struct_unpack_Q (firstn 8 f) = Return header_length ->
  (header_length <= size_limit)%N ->
  json_loads rt (firstn (N.to_nat header_length) (skipn 8 f)) = Raise e ->
  existsb (isinstance e) [ValueError; JSONDecodeError; OSError] = false ->
  get_safetensors_header rt file_path size_limit = Raise e.
Proof.
  intros Hsize Hs Hopen Hn Hlim Hj He. unfold get_safetensors_header.
  rewrite Hsize. cbn [bind]. rewrite Hopen. cbn [bind]. rewrite Hn. cbn [bind].
  apply N.ltb_ge in Hs. apply N.ltb_ge in Hlim.
  rewrite Hs, Hlim, Hj. cbn [try_except]. now rewrite He.
Qed.

Lemma get_safetensors_header_propagates_witness :
  os_path_getsize sample_runtime "deep.safetensors" = Return 2008%N
  /\ (8 <= 2008)%N
  /\ open_rb sample_runtime "deep.safetensors" = Return (file_image deep_text)
  /\ struct_unpack_Q (firstn 8 (file_image deep_text)) = Return 2000%N
  /\ (2000 <= DEFAULT_SIZE_LIMIT)%N
  /\ json_loads sample_runtime
       (firstn (N.to_nat 2000) (skipn 8 (file_image deep_text)))
     = Raise RecursionError
  /\ get_safetensors_header sample_runtime "deep.safetensors"
       DEFAULT_SIZE_LIMIT
     = Raise RecursionError.
Proof.
  assert (H1 : os_path_getsize sample_runtime "deep.safetensors"
               = Return 2008%N) by (vm_compute; reflexivity).
  assert (H2 : (8 <= 2008)%N) by (vm_compute; discriminate).
  assert (H3 : open_rb sample_runtime "deep.safetensors"
               = Return (file_image deep_text)) by reflexivity.
  assert (H4 : struct_unpack_Q (firstn 8 (file_image deep_text))
               = Return 2000%N) by (vm_compute; reflexivity).
  assert (H5 : (2000 <= DEFAULT_SIZE_LIMIT)%N) by (vm_compute; discriminate).
  assert (H6 : json_loads sample_runtime
                 (firstn (N.to_nat 2000) (skipn 8 (file_image deep_text)))
               = Raise RecursionError) by (vm_compute; reflexivity).
  repeat (split; [assumption|]).
  exact (get_safetensors_header_propagates sample_runtime "deep.safetensors"
           DEFAULT_SIZE_LIMIT 2008 2000 (file_image deep_text) RecursionError
           H1 H2 H3 H4 H5 H6 eq_refl).
Defined.

(** ** What the assembled dictionary holds *)

Section Assembled.
Implicit Types (enc dec d : PyDict.t ndarray) (k name : string).

















End Assembled.




(** ** End to end *)













(** * Further properties *)

(** ** The header inspector, continued *)

(** X1. Whatever the file and the decoder do, the inspector never lets an
    exception of one of the classes of its [except] clause out. *)
Theorem header_never_raises_handled (rt : runtime) (file_path : string)
    (size_limit : N) (e : exception) :
  get_safetensors_header rt file_path size_limit = Raise e ->
  isinstance e ValueError = false
  /\ isinstance e JSONDecodeError = false
  /\ isinstance e OSError = false.
Proof.
  unfold get_safetensors_header, try_except.
  destruct (let* size := os_path_getsize rt file_path in _) as [v|e0];
    [discriminate|].
  destruct (existsb (isinstance e0) [ValueError; JSONDecodeError; OSError])
    eqn:E; [discriminate|].
  intros [= <-]. cbn [existsb] in E.
  apply orb_false_elim in E as [E1 E]. apply orb_false_elim in E as [E2 E].
  apply orb_false_elim in E as [E3 _]. auto.
Qed.

Lemma header_never_raises_handled_witness :
  get_safetensors_header sample_runtime "deep.safetensors" DEFAULT_SIZE_LIMIT
  = Raise RecursionError
  /\ isinstance RecursionError ValueError = false
  /\ isinstance RecursionError JSONDecodeError = false
  /\ isinstance RecursionError OSError = false.
Proof.
  assert (H : get_safetensors_header sample_runtime "deep.safetensors"
                DEFAULT_SIZE_LIMIT = Raise RecursionError)
    by (vm_compute; reflexivity).
  split; [exact H|].
  exact (header_never_raises_handled sample_runtime "deep.safetensors"
           DEFAULT_SIZE_LIMIT RecursionError H).
Defined.

(** X2. A file of fewer than eight bytes yields the empty list without
    being opened: the answer does not depend on what opening or decoding
    would do. *)
Theorem header_short_file (rt : runtime) (file_path : string)
    (size_limit size : N) :
  os_path_getsize rt file_path = Return size ->
  (size < 8)%N ->
  get_safetensors_header rt file_path size_limit = Return (JArray []).
Proof.
  intros Hsize Hs. unfold get_safetensors_header. rewrite Hsize. cbn [bind].
  apply N.ltb_lt in Hs. now rewrite Hs.
Qed.

Lemma header_short_file_witness :
  os_path_getsize stub_runtime "tiny.safetensors" = Return 3%N
  /\ (3 < 8)%N
  /\ open_rb stub_runtime "tiny.safetensors" = Raise RecursionError
  /\ get_safetensors_header stub_runtime "tiny.safetensors" DEFAULT_SIZE_LIMIT
     = Return (JArray []).
Proof.
  split; [reflexivity|]. split; [reflexivity|]. split; [reflexivity|].
  apply (header_short_file stub_runtime "tiny.safetensors"
           DEFAULT_SIZE_LIMIT 3); reflexivity.
Defined.



(** ** The prefix resolver, continued *)

Lemma find_app_first {A : Type} (f : A -> bool) (before after : list A) (a : A) :
  (forall x, In x before -> f x = false) ->
  f a = true ->
  find f (before ++ a :: after)%list = Some a.
Proof.
  intros Hb Ha. induction before as [|b before IH]; simpl.
  - now rewrite Ha.
  - rewrite (Hb b (or_introl eq_refl)). apply IH.
    intros x Hx. apply Hb. now right.
Qed.

Lemma find_all_false {A : Type} (f : A -> bool) (l : list A) :
  (forall x, In x l -> f x = false) -> find f l = None.
Proof.
  intros H. induction l as [|a l IH]; simpl; [reflexivity|].
  rewrite (H a (or_introl eq_refl)). apply IH.
  intros x Hx. apply H. now right.
Qed.

(** X4. With a non-empty postfix: when [key] ends with the postfix and does
    not contain the excluded word, and no key before it in iteration order
    does, the resolver returns [key] without its postfix. *)
Theorem get_tensor_prefix_first_qualifying {V : Type}
    (state_dict : PyDict.t V) (postfix : string)
    (not_containing : option string) (before after : list string)
    (key : string) :
  postfix <> "" ->
  PyDict.keys state_dict = (before ++ key :: after)%list ->
  (forall k, In k before -> qualifies postfix not_containing k = false) ->
  qualifies postfix not_containing key = true ->
  get_tensor_prefix state_dict postfix not_containing ++ postfix = key.
Proof.
  intros Hne Hkeys Hbefore Hkey.
  pose proof (get_tensor_prefix_nonempty state_dict postfix not_containing Hne)
    as H.
  unfold first_match in H.
  rewrite Hkeys, (find_app_first _ _ _ _ Hbefore Hkey) in H. now symmetry.
Qed.

Lemma get_tensor_prefix_first_qualifying_witness :
  ".3.conv.4.bias" <> ""
  /\ PyDict.keys [("encoder.3.conv.4.bias", tt); ("other.weight", tt);
                  ("decoder.3.conv.4.bias", tt); ("late.3.conv.4.bias", tt)]
     = (["encoder.3.conv.4.bias"; "other.weight"]
        ++ "decoder.3.conv.4.bias" :: ["late.3.conv.4.bias"])%list
  /\ qualifies ".3.conv.4.bias" (Some "encoder") "encoder.3.conv.4.bias" = false
  /\ qualifies ".3.conv.4.bias" (Some "encoder") "other.weight" = false
  /\ qualifies ".3.conv.4.bias" (Some "encoder") "decoder.3.conv.4.bias" = true
  /\ get_tensor_prefix
       [("encoder.3.conv.4.bias", tt); ("other.weight", tt);
        ("decoder.3.conv.4.bias", tt); ("late.3.conv.4.bias", tt)]
       ".3.conv.4.bias" (Some "encoder") ++ ".3.conv.4.bias"
     = "decoder.3.conv.4.bias".
Proof.
  split; [discriminate|]. split; [reflexivity|].
  split; [reflexivity|]. split; [reflexivity|]. split; [reflexivity|].
  apply (get_tensor_prefix_first_qualifying
           [("encoder.3.conv.4.bias", tt); ("other.weight", tt);
            ("decoder.3.conv.4.bias", tt); ("late.3.conv.4.bias", tt)]
           ".3.conv.4.bias" (Some "encoder")
           ["encoder.3.conv.4.bias"; "other.weight"] ["late.3.conv.4.bias"]
           "decoder.3.conv.4.bias").
  - discriminate.
  - reflexivity.
  - intros k [<-|[<-|[]]]; reflexivity.
  - reflexivity.
Defined.

(** X5. When no key both ends with the postfix and avoids the excluded
    word, the resolver returns the empty string; this is also its answer on
    a dictionary without keys. *)
Theorem get_tensor_prefix_no_match {V : Type} (state_dict : PyDict.t V)
    (postfix : string) (not_containing : option string) :
  (forall k, In k (PyDict.keys state_dict) ->
             qualifies postfix not_containing k = false) ->
  get_tensor_prefix state_dict postfix not_containing = "".
Proof.
  intros H. rewrite get_tensor_prefix_first_match. unfold first_match.
  now rewrite (find_all_false _ _ H).
Qed.

Lemma get_tensor_prefix_no_match_witness :
  (forall k, In k (PyDict.keys [("encoder.3.conv.4.bias", tt);
                                ("decoder.8.conv.0.weight", tt)]) ->
             qualifies ".3.conv.4.bias" (Some "encoder") k = false)
  /\ get_tensor_prefix [("encoder.3.conv.4.bias", tt);
                        ("decoder.8.conv.0.weight", tt)]
       ".3.conv.4.bias" (Some "encoder") = "".
Proof.
  assert (H : forall k, In k (PyDict.keys [("encoder.3.conv.4.bias", tt);
                                           ("decoder.8.conv.0.weight", tt)]) ->
                        qualifies ".3.conv.4.bias" (Some "encoder") k = false).
  { intros k [<-|[<-|[]]]; reflexivity. }
  split; [exact H|].
  exact (get_tensor_prefix_no_match _ _ _ H).
Defined.

(** ** The classifier, continued *)

(** The chain of tests of [is_taesd] as one disjunction. *)
Lemma is_taesd_as_or {V : Type} (state_dict : PyDict.t V) :
  is_taesd state_dict
  = (PyDict.mem "3.conv.4.bias" state_dict
     && PyDict.mem "8.conv.0.weight" state_dict)
    || (PyDict.mem "decoder.layers.3.conv.4.bias" state_dict
        && PyDict.mem "decoder.layers.8.conv.0.weight" state_dict)
    || (PyDict.mem "encoder.layers.4.conv.4.bias" state_dict
        && PyDict.mem "encoder.layers.8.conv.0.weight" state_dict)
    || existsb (fun key => existsb (Str.startswith key) TAESD_ROOT_NAMES)
         (PyDict.keys state_dict).
Proof.
  unfold is_taesd.
  destruct (_ && _); [reflexivity|].
  destruct (_ && _); [reflexivity|].
  destruct (_ && _); reflexivity.
Qed.

(** X6. Family membership depends on the set of keys only and is kept when
    keys are added: a dictionary that holds all the keys of a family member
    is a family member. *)
Theorem is_taesd_monotone {V W : Type} (state_dict : PyDict.t V)
    (larger : PyDict.t W) :
  (forall k, In k (PyDict.keys state_dict) -> In k (PyDict.keys larger)) ->
  is_taesd state_dict = true ->
  is_taesd larger = true.
Proof.
  intros Hsub. rewrite !is_taesd_as_or.
  assert (Hmem : forall k, PyDict.mem k state_dict = true ->
                           PyDict.mem k larger = true).
  { intros k H. apply mem_iff. apply Hsub. now apply mem_iff. }
  assert (Hpair : forall a b,
             PyDict.mem a state_dict && PyDict.mem b state_dict = true ->
             PyDict.mem a larger && PyDict.mem b larger = true).
  { intros a b H. apply andb_prop in H as [Ha Hb].
    now rewrite (Hmem a Ha), (Hmem b Hb). }
  rewrite !orb_true_iff. intros [[[H|H]|H]|H].
  - left. left. left. now apply Hpair.
  - left. left. right. now apply Hpair.
  - left. right. now apply Hpair.
  - right. apply existsb_exists in H as (key & Hin & Hs).
    apply existsb_exists. exists key. split; [now apply Hsub | exact Hs].
Qed.

Lemma is_taesd_monotone_witness :
  (forall k, In k (PyDict.keys [("taef1_decoder.1.weight", tt)]) ->
             In k (PyDict.keys [("extra", 0%nat); ("taef1_decoder.1.weight", 1%nat)]))
  /\ is_taesd [("taef1_decoder.1.weight", tt)] = true
  /\ is_taesd [("extra", 0%nat); ("taef1_decoder.1.weight", 1%nat)] = true.
Proof.
  assert (H : forall k, In k (PyDict.keys [("taef1_decoder.1.weight", tt)]) ->
                        In k (PyDict.keys [("extra", 0%nat);
                                           ("taef1_decoder.1.weight", 1%nat)])).
  { intros k [<-|[]]. right. left. reflexivity. }
  split; [exact H|]. split; [reflexivity|].
  exact (is_taesd_monotone _ _ H eq_refl).
Defined.

(** X7. A dictionary that is not a family member is rejected for either
    role, whatever the file is called: the file name alone never
    classifies. *)
Theorem is_taesd_with_role_non_family {V : Type} (file_path : string)
    (state_dict : PyDict.t V) (role : string) :
  valid_role role ->
  is_taesd state_dict = false ->
  is_taesd_with_role file_path state_dict role = Return false.
Proof.
  intros Hrole Hfam. unfold is_taesd_with_role. rewrite Hfam.
  destruct Hrole as [-> | ->]; cbn [in_tuple existsb py_assert bind];
    simpl String.eqb; cbn [orb py_assert bind negb];
    now rewrite orb_true_r.
Qed.

Lemma is_taesd_with_role_non_family_witness :
  valid_role "encoder"
  /\ is_taesd [("model.diffusion.weight", tt)] = false
  /\ is_taesd_with_role "taesd_encoder.safetensors"
       [("model.diffusion.weight", tt)] "encoder" = Return false.
Proof.
  split; [left; reflexivity|]. split; [reflexivity|].
  apply (is_taesd_with_role_non_family "taesd_encoder.safetensors"
           [("model.diffusion.weight", tt)] "encoder");
    [left; reflexivity | reflexivity].
Defined.

(** X8. A role other than "encoder" and "decoder" fails the assertion,
    before the dictionary or the file name is looked at. *)
Theorem is_taesd_with_role_invalid_role {V : Type} (file_path : string)
    (state_dict : PyDict.t V) (role : string) :
  role <> "encoder" ->
  role <> "decoder" ->
  is_taesd_with_role file_path state_dict role = Raise AssertionError.
Proof.
  intros He Hd. unfold is_taesd_with_role, in_tuple. cbn [existsb].
  apply String.eqb_neq in He, Hd. now rewrite He, Hd.
Qed.

Lemma is_taesd_with_role_invalid_role_witness :
  "Encoder" <> "encoder"
  /\ "Encoder" <> "decoder"
  /\ is_taesd_with_role "taesd_encoder.safetensors"
       [("taesd_encoder.1.weight", tt)] "Encoder" = Raise AssertionError.
Proof.
  split; [discriminate|]. split; [discriminate|].
  apply (is_taesd_with_role_invalid_role "taesd_encoder.safetensors"
           [("taesd_encoder.1.weight", tt)] "Encoder"); discriminate.
Defined.

(** ** Finding the model of a role *)

Lemma find_taesd_unfold (rt : runtime) (input_files : list string)
    (role : string) :
  valid_role role ->
  find_taesd_with_role rt input_files role
  = find_taesd_loop rt input_files role (opposite_role role).
Proof. intros [-> | ->]; reflexivity. Qed.

Lemma find_loop_rejected (rt : runtime) (file : string) (rest : list string)
    (role opposite : string) (state_dict : PyDict.t json) :
  examined rt file role state_dict false ->
  find_taesd_loop rt (file :: rest) role opposite
  = find_taesd_loop rt rest role opposite.
Proof.
  intros (header & Hh & Hs & Hc). cbn [find_taesd_loop].
  now rewrite Hh; cbn [bind]; rewrite Hs; cbn [bind]; rewrite Hc.
Qed.









(** X11. A candidate that does not exist or cannot be read (its size or
    its content is refused with an [OSError]) is passed over: the search
    goes on with the remaining candidates as if it were not listed. *)
Theorem find_taesd_skips_unreadable (rt : runtime) (role file : string)
    (rest : list string) :
  valid_role role ->
  os_path_getsize rt file = Raise OSError
  \/ (exists size, os_path_getsize rt file = Return size
                   /\ open_rb rt file = Raise OSError) ->
  find_taesd_with_role rt (file :: rest) role
  = find_taesd_with_role rt rest role.
Proof.
  intros Hrole Hfile. rewrite !(find_taesd_unfold _ _ _ Hrole).
  apply (find_loop_rejected _ _ _ _ _ []).
  exists (JArray []). split; [|split; [reflexivity|]].
  - destruct (get_safetensors_header_empty rt file DEFAULT_SIZE_LIMIT)
      as (_ & _ & H3 & H4 & _).
    destruct Hfile as [H | (size & Hs & Ho)].
    + now apply (H3 OSError).
    + now apply (H4 size OSError).
  - destruct Hrole as [-> | ->]; reflexivity.
Qed.

Lemma find_taesd_skips_unreadable_witness :
  valid_role "decoder"
  /\ os_path_getsize sample_runtime "missing.safetensors" = Raise OSError
  /\ find_taesd_with_role sample_runtime
       ["missing.safetensors"; "diffusion_pytorch_model.safetensors"]
       "decoder"
     = find_taesd_with_role sample_runtime
         ["diffusion_pytorch_model.safetensors"] "decoder".
Proof.
  split; [right; reflexivity|]. split; [reflexivity|].
  apply (find_taesd_skips_unreadable sample_runtime "decoder"
           "missing.safetensors" ["diffusion_pytorch_model.safetensors"]).
  - right; reflexivity.
  - left; reflexivity.
Defined.



(** ** Facts about dictionaries: writes to fresh keys *)




(** ** The tensor loader, continued *)

Lemma ensure_dot_idempotent (prefix : string) :
  ensure_dot (ensure_dot prefix) = ensure_dot prefix.
Proof.
  unfold ensure_dot.
  destruct (negb (String.eqb prefix "") && negb (Str.endswith prefix "."))
    eqn:E.
  - rewrite endswith_append. cbn [negb]. now rewrite andb_false_r.
  - now rewrite E.
Qed.

(** X13. The trailing dot of either prefix is optional: loading with the
    prefixes already normalised gives the same tensor set. *)
Theorem load_tensors_trailing_dot_optional (rt : runtime)
    (path prefix target_prefix : string) :
  load_tensors rt path (ensure_dot prefix) (ensure_dot target_prefix)
  = load_tensors rt path prefix target_prefix.
Proof. unfold load_tensors. now rewrite !ensure_dot_idempotent. Qed.



(** ** Decimal numerals, continued *)

Ltac eval_digit :=
  match goal with
  | |- context [Str.digit_value ?c] =>
      let v := eval vm_compute in (Str.digit_value c) in
      change (Str.digit_value c) with v
  end.

Lemma int_from_of_uint_acc (d : Decimal.uint) (acc : positive) :
  Str.int_from (Zpos acc) (NilEmpty.string_of_uint d)
  = Zpos (Pos.of_uint_acc d acc).
Proof.
  revert acc. induction d; intros acc; cbn [NilEmpty.string_of_uint
    Str.int_from Pos.of_uint_acc]; [reflexivity|..];
    eval_digit; rewrite <- IHd; f_equal; lia.
Qed.

Lemma int_from_of_uint (d : Decimal.uint) :
  Str.int_from 0 (NilEmpty.string_of_uint d) = Z.of_N (Pos.of_uint d).
Proof.
  induction d; cbn [NilEmpty.string_of_uint Str.int_from Pos.of_uint];
    [reflexivity | exact IHd | ..];
    eval_digit; cbn [Z.of_N]; rewrite <- int_from_of_uint_acc; reflexivity.
Qed.



Lemma int_of_int (z : Z) : (0 <= z)%Z -> Str.int (Str.of_int z) = z.
Proof.
  intros Hz. unfold Str.of_int, Str.int.
  destruct z as [|p|p]; [reflexivity| |lia].
  cbn [Z.to_int NilZero.string_of_int]. unfold NilZero.string_of_uint.
  pose proof (Unsigned.to_uint_nonnil p) as Hn.
  pose proof (int_from_of_uint (Pos.to_uint p)) as H.
  rewrite Unsigned.of_to in H.
  destruct (Pos.to_uint p) eqn:E; try congruence; exact H.
Qed.


(** ** The layer realigner, continued *)

(** X15. A forward shift leaves layer 0 of the prefix vacant: whatever the
    dictionary holds, no key of the result is the prefix followed by "0"
    and then nothing or a dotted rest. *)
Theorem shift_layers_forward_vacates_layer_zero {V : Type}
    (state_dict : PyDict.t V) (layer_prefix : string) (layer_offset : Z)
    (rest : string) :
  (0 < layer_offset)%Z ->
  rest = "" \/ (exists r, rest = "." ++ r) ->
  ~ In (layer_prefix ++ "0" ++ rest)
      (PyDict.keys (shift_layers state_dict layer_prefix layer_offset)).
Proof.
  intros Hpos Hrest Hin. apply shift_layers_keys in Hin as (key & _ & E).
  symmetry in E. revert E. now apply shift_never_layer_zero.
Qed.

Lemma shift_layers_forward_vacates_layer_zero_witness :
  (0 < 2)%Z
  /\ (".bias" = "" \/ (exists r, ".bias" = "." ++ r))
  /\ ~ In ("dec." ++ "0" ++ ".bias")
         (PyDict.keys
            (shift_layers [("dec.0.bias", tt); ("dec.00.bias", tt);
                           ("dec.x.bias", tt)] "dec." 2)).
Proof.
  split; [reflexivity|].
  split; [right; exists "bias"; reflexivity|].
  apply (shift_layers_forward_vacates_layer_zero
           [("dec.0.bias", tt); ("dec.00.bias", tt); ("dec.x.bias", tt)]
           "dec." 2 ".bias");
    [reflexivity | right; exists "bias"; reflexivity].
Defined.








(** ** The assembler, continued *)





(** A run of the assembler that returns has loaded both tensor sets and
    holds [assembled] under the reference it returns. *)
Lemma build_tiny_transcoder_inv (rt : runtime)
    (encoder_path_and_prefix decoder_path_and_prefix : string * string)
    (input_latent_format output_latent_format : string)
    (sigma : option Q) (emulation : bool) (dt : option dtype) (h : heap)
    (l : loc) (h' : heap) :
  build_tiny_transcoder rt encoder_path_and_prefix decoder_path_and_prefix
    input_latent_format output_latent_format sigma emulation dt h
  = Return (l, h') ->
  exists enc dec input_pair output_pair,
    load_tensors rt (fst encoder_path_and_prefix)
      (snd encoder_path_and_prefix) ENCODER_PREFIX = Return enc
    /\ load_tensors rt (fst decoder_path_and_prefix)
         (snd decoder_path_and_prefix) DECODER_PREFIX = Return dec
    /\ PyDict.get SCALE_AND_SHIFT_BY_LATENT_FORMAT input_latent_format
       = Some input_pair
    /\ PyDict.get SCALE_AND_SHIFT_BY_LATENT_FORMAT output_latent_format
       = Some output_pair
    /\ deref h' l
       = assembled enc dec input_pair output_pair sigma emulation dt.
Proof.
  intros H.
  destruct (in_tuple input_latent_format VALID_LATENT_FORMATS) eqn:Ei.
  2: { unfold build_tiny_transcoder in H. rewrite Ei in H. discriminate. }
  destruct (in_tuple output_latent_format VALID_LATENT_FORMATS) eqn:Eo.
  2: { unfold build_tiny_transcoder in H. rewrite Ei, Eo in H. discriminate. }
  destruct (load_tensors rt (fst encoder_path_and_prefix)
              (snd encoder_path_and_prefix) ENCODER_PREFIX)
    as [enc|e] eqn:Le.
  2: { unfold build_tiny_transcoder in H. rewrite Ei, Eo in H.
       cbn [py_assert bind] in H. rewrite Le in H. discriminate. }
  destruct (load_tensors rt (fst decoder_path_and_prefix)
              (snd decoder_path_and_prefix) DECODER_PREFIX)
    as [dec|e] eqn:Ld.
  2: { unfold build_tiny_transcoder in H. rewrite Ei, Eo in H.
       cbn [py_assert bind] in H. rewrite Le in H. cbn [bind] in H.
       rewrite Ld in H. discriminate. }
  destruct (valid_format_entry _ Ei) as (ip & Hip).
  destruct (valid_format_entry _ Eo) as (op & Hop).
  destruct (build_tiny_transcoder_returns rt _ _ _ _ ip op sigma emulation dt h
              enc dec Hip Hop Le Ld) as (l2 & h2 & Hb & _ & Hl & _).
  rewrite Hb in H. injection H as <- <-.
  exists enc, dec, ip, op. repeat split; try assumption.
  now apply deref_lookup.
Qed.


(** X19. A blur sigma of zero counts as no blur sigma: the assembler does
    exactly what it does when none is given. *)
Theorem build_zero_sigma_is_no_sigma (rt : runtime)
    (encoder_path_and_prefix decoder_path_and_prefix : string * string)
    (input_latent_format output_latent_format : string)
    (sigma : Q) (emulation : bool) (dt : option dtype) (h : heap) :
  (sigma == 0)%Q ->
  build_tiny_transcoder rt encoder_path_and_prefix decoder_path_and_prefix
    input_latent_format output_latent_format (Some sigma) emulation dt h
  = build_tiny_transcoder rt encoder_path_and_prefix decoder_path_and_prefix
      input_latent_format output_latent_format None emulation dt h.
Proof.
  intros Hz. unfold build_tiny_transcoder. cbn [float_truthy].
  apply Qeq_bool_iff in Hz. now rewrite Hz.
Qed.

Lemma build_zero_sigma_is_no_sigma_witness :
  (0 # 5 == 0)%Q
  /\ build_tiny_transcoder sample_runtime
       ("taesdxl_encoder.safetensors", "taesdxl_encoder")
       ("diffusion_pytorch_model.safetensors", "decoder.layers")
       "sd" "sdxl" (Some (0 # 5)) true None sample_heap
     = build_tiny_transcoder sample_runtime
         ("taesdxl_encoder.safetensors", "taesdxl_encoder")
         ("diffusion_pytorch_model.safetensors", "decoder.layers")
         "sd" "sdxl" None true None sample_heap.
Proof.
  split; [reflexivity|].
  apply (build_zero_sigma_is_no_sigma sample_runtime
           ("taesdxl_encoder.safetensors", "taesdxl_encoder")
           ("diffusion_pytorch_model.safetensors", "decoder.layers")
           "sd" "sdxl" (0 # 5) true None sample_heap).
  reflexivity.
Defined.

(** ** What the assembled dictionary holds *)



















(** ** Choosing a path that is not taken *)

Lemma find_unique_loop_first_free (path_exists : string -> bool)
    (base_name extension : string) (n : Z) :
  (n <= 999999)%Z ->
  path_exists (numbered_path base_name extension n) = false ->
  forall (remaining : nat) (number : Z),
    (number <= n)%Z ->
    (n - number < Z.of_nat remaining)%Z ->
    (forall m, (number <= m < n)%Z ->
               path_exists (numbered_path base_name extension m) = true) ->
    find_unique_loop path_exists base_name extension number remaining
    = Some (numbered_path base_name extension n).
Proof.
  intros Hn Hfree. induction remaining as [|remaining IH];
    intros number Hle Hfuel Htaken; [lia|].
  cbn [find_unique_loop].
  destruct (Z.eq_dec number n) as [-> | Hne].
  - now rewrite Hfree.
  - rewrite (Htaken number) by lia.
    replace (number =? 999999)%Z with false by (symmetry; apply Z.eqb_neq; lia).
    cbn [negb orb]. apply IH; [lia | lia |].
    intros m Hm. apply Htaken. lia.
Qed.

Lemma find_unique_loop_exhausted (path_exists : string -> bool)
    (base_name extension : string) :
  forall (remaining : nat) (number : Z),
    (number <= 999999)%Z ->
    (999999 - number < Z.of_nat remaining)%Z ->
    (forall m, (number <= m < 999999)%Z ->
               path_exists (numbered_path base_name extension m) = true) ->
    find_unique_loop path_exists base_name extension number remaining
    = Some (numbered_path base_name extension 999999).
Proof.
  induction remaining as [|remaining IH];
    intros number Hle Hfuel Htaken; [lia|].
  cbn [find_unique_loop].
  destruct (Z.eq_dec number 999999%Z) as [-> | Hne].
  - rewrite Z.eqb_refl. now rewrite orb_true_r.
  - rewrite (Htaken number) by lia.
    replace (number =? 999999)%Z with false by (symmetry; apply Z.eqb_neq; lia).
    cbn [negb orb]. apply IH; [lia | lia |].
    intros m Hm. apply Htaken. lia.
Qed.

Lemma find_unique_loop_returns (path_exists : string -> bool)
    (base_name extension : string) :
  forall (remaining : nat) (number : Z),
    (number <= 999999)%Z ->
    (999999 - number < Z.of_nat remaining)%Z ->
    exists new_path,
      find_unique_loop path_exists base_name extension number remaining
      = Some new_path
      /\ (path_exists new_path = false
          \/ new_path = numbered_path base_name extension 999999).
Proof.
  induction remaining as [|remaining IH]; intros number Hle Hfuel; [lia|].
  cbn [find_unique_loop].
  destruct (path_exists (numbered_path base_name extension number)) eqn:E.
  - destruct (Z.eq_dec number 999999%Z) as [-> | Hne].
    + rewrite Z.eqb_refl. cbn [negb orb]. eauto.
    + replace (number =? 999999)%Z with false
        by (symmetry; apply Z.eqb_neq; lia).
      cbn [negb orb]. apply IH; lia.
  - cbn [negb orb]. eauto.
Qed.

Lemma range_length : Z.of_nat (Z.to_nat (1000000 - 1)) = 999999%Z.
Proof. rewrite Z2Nat.id; lia. Qed.

(** X26. [find_unique_path] always returns a path, never [None], and the
    path it returns does not exist unless it is the candidate numbered
    999999: only when it runs out of numbers does it name a file that is
    there. *)
Theorem find_unique_path_returns (path_exists : string -> bool)
    (path : string) :
  exists new_path,
    find_unique_path path_exists path = Some new_path
    /\ (path_exists new_path = false \/ new_path = last_candidate path).
Proof.
  unfold find_unique_path, last_candidate.
  destruct (path_exists path) eqn:E; cbn [negb].
  - destruct (OsPath.splitext path) as [base_name extension]. cbn [fst snd].
    apply find_unique_loop_returns; [lia|]. rewrite range_length. lia.
  - eauto.
Qed.

(** X27. When the path exists, the result is the first numbered candidate
    that does not exist: "<base>_<n><extension>" with the number written in
    at least two digits, [n] being the least number from 1 whose candidate
    is free. *)
Theorem find_unique_path_first_free (path_exists : string -> bool)
    (path : string) (n : Z) :
  path_exists path = true ->
  (1 <= n <= 999999)%Z ->
  (forall m, (1 <= m < n)%Z ->
             path_exists
               (numbered_path (fst (OsPath.splitext path))
                  (snd (OsPath.splitext path)) m) = true) ->
  path_exists
    (numbered_path (fst (OsPath.splitext path))
       (snd (OsPath.splitext path)) n) = false ->
  find_unique_path path_exists path
  = Some (numbered_path (fst (OsPath.splitext path))
            (snd (OsPath.splitext path)) n).
Proof.
  intros Hp Hn Htaken Hfree. unfold find_unique_path. rewrite Hp. cbn [negb].
  destruct (OsPath.splitext path) as [base_name extension].
  cbn [fst snd] in *.
  apply find_unique_loop_first_free; try lia; assumption.
Qed.

Lemma find_unique_path_first_free_witness :
  sample_exists "model.safetensors" = true
  /\ (1 <= 2 <= 999999)%Z
  /\ (forall m, (1 <= m < 2)%Z ->
                sample_exists
                  (numbered_path (fst (OsPath.splitext "model.safetensors"))
                     (snd (OsPath.splitext "model.safetensors")) m) = true)
  /\ sample_exists
       (numbered_path (fst (OsPath.splitext "model.safetensors"))
          (snd (OsPath.splitext "model.safetensors")) 2) = false
  /\ find_unique_path sample_exists "model.safetensors"
     = Some (numbered_path (fst (OsPath.splitext "model.safetensors"))
               (snd (OsPath.splitext "model.safetensors")) 2)
  /\ numbered_path (fst (OsPath.splitext "model.safetensors"))
       (snd (OsPath.splitext "model.safetensors")) 2
     = "model_02.safetensors".
Proof.
  assert (T : forall m, (1 <= m < 2)%Z ->
                sample_exists
                  (numbered_path (fst (OsPath.splitext "model.safetensors"))
                     (snd (OsPath.splitext "model.safetensors")) m) = true).
  { intros m Hm. assert (m = 1%Z) as -> by lia. vm_compute. reflexivity. }
  split; [reflexivity|]. split; [lia|]. split; [exact T|].
  split; [vm_compute; reflexivity|].
  split; [|vm_compute; reflexivity].
  apply (find_unique_path_first_free sample_exists "model.safetensors" 2).
  - reflexivity.
  - lia.
  - exact T.
  - vm_compute; reflexivity.
Defined.

(** X28. When the path and all its candidates numbered below 999999
    exist, the result is the candidate numbered 999999, whether it exists
    or not: the function then names a file that may be overwritten. *)
Theorem find_unique_path_exhausted (path_exists : string -> bool)
    (path : string) :
  path_exists path = true ->
  (forall m, (1 <= m < 999999)%Z ->
             path_exists
               (numbered_path (fst (OsPath.splitext path))
                  (snd (OsPath.splitext path)) m) = true) ->
  find_unique_path path_exists path = Some (last_candidate path).
Proof.
  intros Hp Htaken. unfold find_unique_path, last_candidate.
  rewrite Hp. cbn [negb].
  destruct (OsPath.splitext path) as [base_name extension].
  cbn [fst snd] in *.
  apply find_unique_loop_exhausted; try lia; assumption.
Qed.

Lemma find_unique_path_exhausted_witness :
  (fun _ : string => true) "model.safetensors" = true
  /\ (forall m, (1 <= m < 999999)%Z ->
                (fun _ : string => true)
                  (numbered_path (fst (OsPath.splitext "model.safetensors"))
                     (snd (OsPath.splitext "model.safetensors")) m) = true)
  /\ find_unique_path (fun _ => true) "model.safetensors"
     = Some (last_candidate "model.safetensors")
  /\ last_candidate "model.safetensors" = "model_999999.safetensors".
Proof.
  split; [reflexivity|]. split; [reflexivity|].
  split; [|vm_compute; reflexivity].
  apply (find_unique_path_exhausted (fun _ => true) "model.safetensors").
  - reflexivity.
  - reflexivity.
Defined.

Lemma append_inj_r (a b c : string) : a ++ c = b ++ c -> a = b.
Proof.
  revert b. induction a as [|x a IH]; intros [|y b] H.
  - reflexivity.
  - exfalso. apply (f_equal String.length) in H.
    rewrite !length_append in H. cbn [String.length] in H. lia.
  - exfalso. apply (f_equal String.length) in H.
    rewrite !length_append in H. cbn [String.length] in H. lia.
  - cbn [String.append] in H. injection H as -> H. f_equal. now apply IH.
Qed.

Lemma format_02d_small (n : Z) :
  (0 <= n < 10)%Z ->
  String.length (format_02d n) = 2%nat /\ Str.int (format_02d n) = n.
Proof.
  intros Hn. rewrite <- (Z2Nat.id n) by lia.
  assert (Hk : (Z.to_nat n < 10)%nat) by lia.
  revert Hk. generalize (Z.to_nat n) as k. intros k Hk.
  do 10 (destruct k as [|k]; [vm_compute; auto|]). lia.
Qed.

(** The number can be read back from its two-digit form. *)
Lemma int_format_02d (n : Z) : (0 <= n)%Z -> Str.int (format_02d n) = n.
Proof.
  intros Hn. destruct (Z.ltb_spec n 10) as [Hlt | Hge].
  - apply format_02d_small. lia.
  - unfold format_02d.
    replace (n <? 10)%Z with false by (symmetry; apply Z.ltb_ge; lia).
    now apply int_of_int.
Qed.

(** X29. The numbered candidates of one path are pairwise distinct: two
    different numbers that are not negative never give the same candidate,
    so the loop never tries a path twice. *)
Theorem numbered_path_injective (base_name extension : string) (m n : Z) :
  (0 <= m)%Z ->
  (0 <= n)%Z ->
  m <> n ->
  numbered_path base_name extension m <> numbered_path base_name extension n.
Proof.
  intros Hm Hn Hne H. apply Hne. unfold numbered_path in H.
  apply append_inj_l in H. apply append_inj_l in H. apply append_inj_r in H.
  rewrite <- (int_format_02d m Hm), <- (int_format_02d n Hn). now rewrite H.
Qed.

Lemma numbered_path_injective_witness :
  (0 <= 1)%Z
  /\ (0 <= 10)%Z
  /\ 1%Z <> 10%Z
  /\ numbered_path "model" ".safetensors" 1
     <> numbered_path "model" ".safetensors" 10.
Proof.
  split; [lia|]. split; [lia|]. split; [lia|].
  apply (numbered_path_injective "model" ".safetensors" 1 10).
  - lia.
  - lia.
  - lia.
Defined.

(** ** Tags in the name of the output file *)

Lemma dot_free_append (a b : string) :
  Str.dot_free (a ++ b) = Str.dot_free a && Str.dot_free b.
Proof.
  induction a as [|c a IH]; [reflexivity|].
  cbn [String.append Str.dot_free]. rewrite IH. now rewrite andb_assoc.
Qed.

Lemma dot_free_remove_dots (s : string) : Str.dot_free (remove_dots s) = true.
Proof.
  induction s as [|c s IH]; [reflexivity|].
  cbn [remove_dots]. destruct (Ascii.eqb c ".") eqn:E; [exact IH|].
  cbn [Str.dot_free]. now rewrite E, IH.
Qed.

(** X30. With a prefix that has no dot, the tag of a dtype, of a float, of
    [None] and of a string without a dot has no dot: whatever the float
    formats to, its dots are removed, so the tags add no extension to a
    file name. *)
Theorem get_file_name_tag_dot_free (format_3g : Q -> string)
    (object : pyobject) (prefix : string) :
  Str.dot_free prefix = true ->
  (forall s, object = ObjStr s -> Str.dot_free s = true) ->
  Str.dot_free (get_file_name_tag format_3g object prefix) = true.
Proof.
  intros Hp Hs. unfold get_file_name_tag.
  set (tag := match object with
              | ObjDtype float16 => "fp16"
              | ObjDtype float32 => "fp32"
              | ObjStr s => if String.eqb s "f1" then "flux" else s
              | ObjFloat x => remove_dots (format_3g x)
              | ObjNone => ""
              end).
  assert (Ht : Str.dot_free tag = true).
  { subst tag. destruct object as [[|] | s | x |]; try reflexivity.
    - destruct (String.eqb s "f1"); [reflexivity | now apply Hs].
    - apply dot_free_remove_dots. }
  destruct (String.eqb tag ""); [reflexivity|].
  now rewrite dot_free_append, Hp, Ht.
Qed.

Lemma get_file_name_tag_dot_free_witness :
  Str.dot_free "_blur" = true
  /\ (forall s, ObjFloat 0.5 = ObjStr s -> Str.dot_free s = true)
  /\ Str.dot_free
       (get_file_name_tag (fun _ => "0.5") (ObjFloat 0.5) "_blur") = true
  /\ get_file_name_tag (fun _ => "0.5") (ObjFloat 0.5) "_blur" = "_blur05".
Proof.
  split; [reflexivity|]. split; [discriminate|].
  split; [|reflexivity].
  apply (get_file_name_tag_dot_free (fun _ => "0.5") (ObjFloat 0.5) "_blur").
  - reflexivity.
  - discriminate.
Defined.
